(** * LaTeX-Convertor: the document-to-LaTeX pipeline of [run.py]

    A shallow embedding of the class [LatexConverter] of [src/run.py]:
    the escaper, the preamble builder, the four parsers (DOCX, PDF,
    Markdown, plain text) and the orchestrator [convert], and of the
    command line [main], followed by the properties of the
    specification that concern them.

    Text is a [string]: a sequence of characters, each of them a code
    point below 256 (the ASCII range and Latin-1).  Every character that
    the program tests for or inserts is ASCII. *)

From Stdlib Require Import Ascii String.
From stdpp Require Import gmap strings list.

Local Open Scope stdpp_scope.

(** ** Characters and strings *)

(** The line feed, ['\n'] in the source. *)
Definition LF : ascii := "010"%char.

(** A one-line-feed string and the blank-line separator ["\n\n"]. *)
Definition nl : string := String LF "".
Definition nlnl : string := String LF (String LF "").

Module Str.

(** [c in s] for a one-character [c]. *)
Fixpoint mem (c : ascii) (s : string) : bool :=
  match s with
  | "" => false
  | String d s' => if Ascii.eqb c d then true else mem c s'
  end.

(** [s.startswith(p)], returning what follows the prefix. *)
Fixpoint strip_prefix (p s : string) : option string :=
  match p with
  | "" => Some s
  | String c p' =>
      match s with
      | "" => None
      | String d s' => if Ascii.eqb c d then strip_prefix p' s' else None
      end
  end.

Definition startswith (p s : string) : bool :=
  match strip_prefix p s with Some _ => true | None => false end.

(** [p in s] for strings: [p] occurs in [s] as a contiguous run. *)
Fixpoint contains (p s : string) : bool :=
  if startswith p s then true
  else match s with
       | "" => false
       | String _ s' => contains p s'
       end.

(** The occurrence relation that [contains] decides. *)
Definition occurs (p s : string) : Prop :=
  exists a b, s = a +:+ p +:+ b.

(** [s[n:]]. *)
Fixpoint drop (n : nat) (s : string) : string :=
  match n, s with
  | 0, _ => s
  | S _, "" => ""
  | S k, String _ s' => drop k s'
  end.

(** [s.replace(old, new)] for a one-character [old]. *)
Fixpoint replace_char (old : ascii) (new : string) (s : string) : string :=
  match s with
  | "" => ""
  | String c s' =>
      if Ascii.eqb c old then new +:+ replace_char old new s'
      else String c (replace_char old new s')
  end.

(** [s.split(sep)] for a one-character [sep]: never empty, and
    [join sep (split sep s) = s]. *)
Fixpoint split (sep : ascii) (s : string) : list string :=
  match s with
  | "" => [""]
  | String c s' =>
      if Ascii.eqb c sep then "" :: split sep s'
      else match split sep s' with
           | [] => [String c ""]
           | l :: ls => String c l :: ls
           end
  end.

End Str.

(** ** The escaper: [_escape_latex] *)

(** The dictionary [chars], in the order it is written. *)
Definition chars : list (ascii * string) :=
  [ ("&"%char, "\&");
    ("%"%char, "\%");
    ("$"%char, "\$");
    ("#"%char, "\#");
    ("_"%char, "\_");
    ("{"%char, "\{");
    ("}"%char, "\}");
    ("~"%char, "\textasciitilde{}");
    ("^"%char, "\^{}");
    ("\"%char, "\textbackslash{}") ].

(** [chars[k]] for a one-character key; [None] when [k] is no key,
    which is also when the alternation [pattern] does not match [k]. *)
Fixpoint chars_get (tbl : list (ascii * string)) (k : ascii) : option string :=
  match tbl with
  | [] => None
  | (c, r) :: tbl' => if Ascii.eqb k c then Some r else chars_get tbl' k
  end.

(** [pattern.sub(lambda x: chars[x.group()], text)]: the pattern is the
    alternation of the ten keys, each one literal character, so a match
    is exactly one character of the text that is a key; the scan goes
    left to right over [text] and resumes after each match. *)
Fixpoint pattern_sub (text : string) : string :=
  match text with
  | "" => ""
  | String c rest =>
      match chars_get chars c with
      | Some r => r +:+ pattern_sub rest
      | None => String c (pattern_sub rest)
      end
  end.

Definition _escape_latex (text : string) : string :=
  match text with
  | "" => ""
  | _ => pattern_sub text
  end.

(** ** Python string methods used by the program *)

(** [c.isspace()], which is also the class [\s] of [re] on [str]
    patterns, on the code points below 256: the ASCII white space
    (tab to carriage return, and the space), the separators 28 to 31,
    NEL (133) and the no-break space (160). *)
Definition isspace (c : ascii) : bool :=
  let n := nat_of_ascii c in
  ((9 <=? n) && (n <=? 13)) || ((28 <=? n) && (n <=? 32))
  || (n =? 133) || (n =? 160).

(** [c.lower()] on the code points below 256: the letters A to Z and
    the accented capitals 192 to 222 (215, the multiplication sign, is
    no letter) move up by 32. *)
Definition lower_char (c : ascii) : ascii :=
  let n := nat_of_ascii c in
  if ((65 <=? n) && (n <=? 90))
     || ((192 <=? n) && (n <=? 222) && negb (n =? 215))
  then ascii_of_nat (n + 32) else c.

(** [s.lower()]. *)
Fixpoint lower (s : string) : string :=
  match s with
  | "" => ""
  | String c s' => String (lower_char c) (lower s')
  end.

(** [s.lstrip()], [s.rstrip()] and [s.strip()]. *)
Fixpoint lstrip (s : string) : string :=
  match s with
  | "" => ""
  | String c s' => if isspace c then lstrip s' else s
  end.

Fixpoint rstrip (s : string) : string :=
  match s with
  | "" => ""
  | String c s' =>
      match rstrip s' with
      | "" => if isspace c then "" else String c ""
      | r => String c r
      end
  end.

Definition strip (s : string) : string := rstrip (lstrip s).

(** [s[:n]]. *)
Fixpoint take (n : nat) (s : string) : string :=
  match n, s with
  | 0, _ => ""
  | S _, "" => ""
  | S k, String c s' => String c (take k s')
  end.

(** [s.rfind(c)] for a one-character [c]: the index of the last
    occurrence, [-1] when there is none. *)
Fixpoint rfind (c : ascii) (s : string) : Z :=
  match s with
  | "" => (-1)%Z
  | String d s' =>
      let r := rfind c s' in
      if (0 <=? r)%Z then (r + 1)%Z
      else if Ascii.eqb d c then 0%Z else (-1)%Z
  end.

(** ** [os.path] (the POSIX flavour) *)

(** [os.path.basename(p)]: [p[p.rfind('/') + 1:]]. *)
Definition basename (p : string) : string :=
  Str.drop (Z.to_nat (rfind "/"%char p + 1)) p.

(** The loop of [genericpath._splitext] that skips the leading dots of
    the file name: [true] when one of the [n] characters from
    [filenameIndex] on is not a dot. *)
Fixpoint has_stem (p : string) (filenameIndex : Z) (n : nat) : bool :=
  match n with
  | 0 => false
  | S k =>
      match String.get (Z.to_nat filenameIndex) p with
      | Some c =>
          if Ascii.eqb c "."%char then has_stem p (filenameIndex + 1) k else true
      | None => true
      end
  end.

(** [os.path.splitext(p)]. *)
Definition splitext (p : string) : string * string :=
  let sepIndex := rfind "/"%char p in
  let dotIndex := rfind "."%char p in
  if (dotIndex >? sepIndex)%Z
     && has_stem p (sepIndex + 1) (Z.to_nat (dotIndex - (sepIndex + 1)))
  then (take (Z.to_nat dotIndex) p, Str.drop (Z.to_nat dotIndex) p)
  else (p, "").

(** ** Exceptions, the converter object and the outside world *)

(** The exceptions that reach the caller.  [OtherError] stands for any
    other subclass of [Exception] raised by the run time or by a
    library; every exception carries [str(e)]. *)
Inductive exn : Type :=
| ValueError (msg : string)
| RuntimeError (msg : string)
| OtherError (msg : string).

Definition exn_str (e : exn) : string :=
  match e with
  | ValueError m | RuntimeError m | OtherError m => m
  end.

Inductive result (A : Type) : Type :=
| Ok (a : A)
| Raise (e : exn).
Arguments Ok {A} a.
Arguments Raise {A} e.

(** A value of the [options] dictionary: a string or [None]. *)
Definition pyval : Type := option string.

(** [bool(v)]: [None] and the empty string are false. *)
Definition truthy (v : pyval) : bool :=
  match v with
  | Some (String _ _) => true
  | _ => false
  end.

(** What an f-string prints for [v]. *)
Definition fmt (v : pyval) : string :=
  match v with
  | Some s => s
  | None => "None"
  end.

(** The attributes set by [__init__]. *)
Record LatexConverter : Type := mkConverter {
  input_path : string;
  output_path : string;
  options : gmap string pyval;
  content : string
}.

Definition __init__ (input_path output_path : string)
    (options : gmap string pyval) : LatexConverter :=
  mkConverter input_path output_path options "".

Definition set_content (self : LatexConverter) (c : string) : LatexConverter :=
  mkConverter (input_path self) (output_path self) (options self) c.

(** [d.get(k)] and [d.get(k, default)]. *)
Definition dict_get (d : gmap string pyval) (k : string) : pyval :=
  match d !! k with
  | Some v => v
  | None => None
  end.

Definition dict_get_default (d : gmap string pyval) (k : string)
    (default : string) : pyval :=
  match d !! k with
  | Some v => v
  | None => Some default
  end.

(** The objects handed over by [python-docx]. *)
Record Run : Type := mkRun {
  run_text : string;
  run_bold : bool;
  run_italic : bool
}.

Record Paragraph : Type := mkParagraph {
  para_text : string;
  para_runs : list Run;
  para_style_name : string
}.

(** A table: [len(table.columns)] and, row by row, the [text] of the
    cells. *)
Record Table : Type := mkTable {
  table_columns : nat;
  table_rows : list (list string)
}.

(** What [iter_block_items] yields. *)
Inductive block_item : Type :=
| BlockParagraph (p : Paragraph)
| BlockTable (t : Table).

(** A page of [pdfplumber]: [extract_text()] returns a string or
    [None], or raises. *)
Record Page : Type := mkPage {
  extract_text : result (option string)
}.

(** The codec and the libraries the program calls.  Reading and writing
    text goes through the codec of a file opened in text mode with
    [encoding='utf-8'].  A library is given a path and opens the file
    itself: it is a function of the bytes found at the path, [None]
    when there is no file. *)
Class Runtime : Type := {
  (** [f.read()]: from the bytes of the file to its text *)
  utf8_decode : string -> result string;
  (** [f.write(s)]: from the text to the bytes of the file *)
  utf8_encode : string -> string;
  (** [docx.Document(path)] followed by [iter_block_items] *)
  docx_Document : option string -> result (list block_item);
  (** [pdfplumber.open(path).pages] *)
  pdfplumber_open : option string -> result (list Page)
}.

(** The world outside the object: the files, by path, and what has been
    printed. *)
Record world : Type := mkWorld {
  fs : gmap string string;
  stdout : list string
}.

(** Where the output goes.  [open_w path] is
    [open(path, 'w', encoding='utf-8')]: it raises, for a missing
    directory or a path that may not be written, and then no file is
    made or changed; or it returns, and the file is there and empty.
    [write_w path s] is [f.write(s)] with the close that ends the
    [with] block: it raises, as [UnicodeEncodeError] does for a text
    that has no encoding or [OSError] for a full disk, and then the
    file is left holding the bytes that did reach it, none at all in
    the first case; or it returns, and the file holds the encoded
    text.  [None] is for returning. *)
Class Storage : Type := {
  open_w : string -> option exn;
  write_w : string -> string -> option (exn * string)
}.

(** The storage on which every path can be opened and every text
    written.  A property that names no storage is about this one: what
    a run produces is stated for an output path that can be written,
    and what a failing run leaves behind is stated for every
    storage. *)
#[global] Instance writable : Storage :=
  {| open_w := fun _ => None; write_w := fun _ _ => None |}.

(** ** A state and exception monad over the object and the world *)

Record state : Type := mkState {
  self : LatexConverter;
  outside : world
}.

Definition M (A : Type) : Type := state -> result A * state.

Definition ret {A} (a : A) : M A := fun st => (Ok a, st).

Definition bind {A B} (m : M A) (k : A -> M B) : M B :=
  fun st =>
    match m st with
    | (Ok a, st') => k a st'
    | (Raise e, st') => (Raise e, st')
    end.

Definition raise {A} (e : exn) : M A := fun st => (Raise e, st).

(** [try: m  except Exception as e: h e]. *)
Definition try_except {A} (m : M A) (h : exn -> M A) : M A :=
  fun st =>
    match m st with
    | (Ok a, st') => (Ok a, st')
    | (Raise e, st') => h e st'
    end.

(** A library call that returns or raises without touching the state. *)
Definition lift {A} (r : result A) : M A := fun st => (r, st).

Notation "x <- m ;; k" := (bind m (fun x => k))
  (at level 100, m at next level, right associativity).
Notation "m ;;; k" := (bind m (fun _ => k))
  (at level 100, right associativity).

(** ** Regular-expression substitution: [re.sub]

    Every pattern of [parse_markdown] starts with a literal character,
    so no match is empty.  A pattern is given by its matcher: from a
    position of the subject, told whether [^] holds there (under
    [re.MULTILINE]: at the start of the subject or just after a line
    feed), it returns group 1 and the length of the whole match. *)
Definition matcher : Type := bool -> string -> option (string * nat).

(** [re.sub(pattern, repl, s)]: scan left to right; at a match emit the
    replacement and resume just after the match, [skip] counting the
    characters of the match still to be passed over; elsewhere copy the
    character. *)
Fixpoint re_sub_from (m : matcher) (repl : string -> string)
    (bol : bool) (skip : nat) (s : string) : string :=
  match s with
  | "" => ""
  | String c s' =>
      let bol' := Ascii.eqb c LF in
      match skip with
      | S k => re_sub_from m repl bol' k s'
      | 0 =>
          match m bol s with
          | Some (g, n) => repl g +:+ re_sub_from m repl bol' (n - 1) s'
          | None => String c (re_sub_from m repl bol' 0 s')
          end
      end
  end.

Definition re_sub (m : matcher) (repl : string -> string) (s : string) : string :=
  re_sub_from m repl true 0 s.

(** [(.*?)] followed by the literal [close]: the shortest run of
    characters, none of them a line feed unless [dotall], after which
    [close] follows. *)
Fixpoint lazy_until (dotall : bool) (close : string) (s : string) : option string :=
  match Str.strip_prefix close s with
  | Some _ => Some ""
  | None =>
      match s with
      | "" => None
      | String c s' =>
          if negb dotall && Ascii.eqb c LF then None
          else option_map (String c) (lazy_until dotall close s')
      end
  end.

(** A pattern [open(.*?)close] with literal delimiters. *)
Definition delimited (dotall : bool) (open close : string) : matcher :=
  fun _ s =>
    match Str.strip_prefix open s with
    | Some r =>
        match lazy_until dotall close r with
        | Some g => Some (g, String.length open + String.length g + String.length close)
        | None => None
        end
    | None => None
    end.

(** [[^`]+]: the longest run of characters other than a backtick, and
    what follows it. *)
Fixpoint span_not (c : ascii) (s : string) : string * string :=
  match s with
  | "" => ("", "")
  | String d s' =>
      if Ascii.eqb d c then ("", s)
      else let (g, r) := span_not c s' in (String d g, r)
  end.

(** The group [( .* )] of a pattern without [re.DOTALL]: the rest of
    the line. *)
Definition dot_star (s : string) : string := fst (span_not LF s).

(** [r'```(.*?)```'] with [re.DOTALL]. *)
Definition pat_code_block : matcher := delimited true "```" "```".

(** [r'`([^`]+)`']. *)
Definition pat_inline_code : matcher :=
  fun _ s =>
    match s with
    | String "`" r =>
        match span_not "`"%char r with
        | (String _ _ as g, String _ _) => Some (g, String.length g + 2)
        | _ => None
        end
    | _ => None
    end.

(** The patterns [^# ], [^## ] and [^### ] followed by the group
    [( .* )], with [re.MULTILINE]; [hashes] is the run of [#]. *)
Definition pat_header (hashes : string) : matcher :=
  fun bol s =>
    if bol then
      match Str.strip_prefix (hashes +:+ " ") s with
      | Some r =>
          let g := dot_star r in
          Some (g, String.length hashes + 1 + String.length g)
      | None => None
      end
    else None.

(** [r'\*\*(.*?)\*\*'] and [r'\*(.*?)\*']. *)
Definition pat_bold : matcher := delimited false "**" "**".
Definition pat_italic : matcher := delimited false "*" "*".

(** A replacement template [r'\\cmd{\1}']. *)
Definition template (cmd : string) (g : string) : string :=
  "\" +:+ cmd +:+ "{" +:+ g +:+ "}".

(** ** The preamble and the postamble *)

Definition base_packages : list string :=
  ["geometry"; "graphicx"; "hyperref"; "amsmath";
   "listings"; "xcolor"; "booktabs"; "float"].

(** The raw triple-quoted block that sets up the listings. *)
Definition lstset_block : string :=
  nl +:+ "\lstset{" +:+ nl
  +:+ "    basicstyle=\ttfamily\small," +:+ nl
  +:+ "    breaklines=true," +:+ nl
  +:+ "    frame=single," +:+ nl
  +:+ "    backgroundcolor=\color{gray!10}," +:+ nl
  +:+ "    keywordstyle=\color{blue}," +:+ nl
  +:+ "    commentstyle=\color{green!50!black}," +:+ nl
  +:+ "    stringstyle=\color{red}" +:+ nl
  +:+ "}" +:+ nl
  +:+ "            ".

Definition _get_preamble (self : LatexConverter) : string :=
  let packages :=
    if truthy (dict_get (options self) "packages")
    then base_packages ++ Str.split ","%char (fmt (dict_get (options self) "packages"))
    else base_packages in
  let preamble :=
    [ "\documentclass[" +:+ fmt (dict_get_default (options self) "fontsize" "12pt")
        +:+ "]{" +:+ fmt (dict_get_default (options self) "doc_class" "article") +:+ "}";
      "\usepackage[" +:+ fmt (dict_get_default (options self) "margins" "margin=1in")
        +:+ "]{geometry}" ] in
  let preamble :=
    preamble ++ map (fun pkg => "\usepackage{" +:+ strip pkg +:+ "}") packages in
  let preamble := preamble ++ [lstset_block] in
  let preamble :=
    if truthy (dict_get (options self) "custom_preamble")
    then preamble ++ [fmt (dict_get (options self) "custom_preamble")]
    else preamble in
  let preamble := preamble ++ ["\title{" +:+ basename (input_path self) +:+ "}"] in
  let preamble := preamble ++ ["\author{Auto-Generated}"] in
  let preamble := preamble ++ ["\date{\today}"] in
  let preamble := preamble ++ ["\begin{document}"] in
  let preamble := preamble ++ ["\maketitle"] in
  String.concat nl preamble.

Definition _get_postamble (self : LatexConverter) : string :=
  nl +:+ "\end{document}".

(** ** The primitive effects *)

(** [print(s)]. *)
Definition print (s : string) : M unit :=
  fun st =>
    (Ok tt,
     mkState (self st)
       (mkWorld (fs (outside st)) (stdout (outside st) ++ [s]))).

(** Opening [path] for reading and taking its bytes; a missing file
    raises [FileNotFoundError]. *)
Definition read_bytes (path : string) : M string :=
  fun st =>
    match fs (outside st) !! path with
    | Some bytes => (Ok bytes, st)
    | None =>
        (Raise (OtherError
                  ("[Errno 2] No such file or directory: '" +:+ path +:+ "'")),
         st)
    end.

(** A library opening the file at [path]. *)
Definition library_open {A} (open : option string -> result A)
    (path : string) : M A :=
  fun st => (open (fs (outside st) !! path), st).

(** [self.content = c]. *)
Definition assign_content (c : string) : M unit :=
  fun st => (Ok tt, mkState (set_content (self st) c) (outside st)).

(** Reading an attribute of [self]. *)
Definition attr {A} (f : LatexConverter -> A) : M A :=
  fun st => (Ok (f (self st)), st).

(** [except Exception as e: raise RuntimeError(f"{prefix}{e}")]. *)
Definition reraise {A} (prefix : string) (e : exn) : M A :=
  raise (RuntimeError (prefix +:+ exn_str e)).

(** ** DOCX *)

(** The body of the loop over [para.runs]: the [escaped_text] that is
    appended to [text]. *)
Definition run_escaped_text (run : Run) : string :=
  let escaped_text := _escape_latex (run_text run) in
  let escaped_text :=
    if run_bold run then "\textbf{" +:+ escaped_text +:+ "}"
    else escaped_text in
  if run_italic run then "\textit{" +:+ escaped_text +:+ "}"
  else escaped_text.

Definition _process_docx_paragraph (para : Paragraph) : string :=
  match strip (para_text para) with
  | "" => ""
  | _ =>
      let text :=
        fold_left (fun text run => text +:+ run_escaped_text run)
          (para_runs para) "" in
      let style_name := lower (para_style_name para) in
      if Str.contains "heading 1" style_name then
        "\section{" +:+ text +:+ "}"
      else if Str.contains "heading 2" style_name then
        "\subsection{" +:+ text +:+ "}"
      else if Str.contains "heading 3" style_name then
        "\subsubsection{" +:+ text +:+ "}"
      else if Str.contains "list" style_name || Str.contains "bullet" style_name then
        "\begin{itemize}" +:+ nl +:+ "\item " +:+ text +:+ nl +:+ "\end{itemize}"
      else text +:+ nl
  end.

(** ["l|" * n]. *)
Fixpoint repeat_str (s : string) (n : nat) : string :=
  match n with
  | 0 => ""
  | S k => s +:+ repeat_str s k
  end.

Definition _process_docx_table (table : Table) : string :=
  let num_cols := table_columns table in
  let col_spec := "|" +:+ repeat_str "l|" num_cols in
  let rows :=
    map (fun row =>
           let cells := map (fun cell => _escape_latex (strip cell)) row in
           String.concat " & " cells +:+ " \\ \hline")
        (table_rows table) in
  let table_content := String.concat nl rows in
  "\begin{table}[H]" +:+ nl +:+ "\centering" +:+ nl
  +:+ "\begin{tabular}{" +:+ col_spec +:+ "}" +:+ nl
  +:+ "\hline" +:+ nl +:+ table_content +:+ nl
  +:+ "\end{tabular}" +:+ nl +:+ "\end{table}".

(** [filter(None, latex_body)]: the non-empty strings. *)
Definition nonempty (s : string) : bool :=
  match s with
  | "" => false
  | _ => true
  end.

(** The body built from the blocks of the document. *)
Definition docx_body (blocks : list block_item) : string :=
  let latex_body :=
    map (fun block =>
           match block with
           | BlockParagraph p => _process_docx_paragraph p
           | BlockTable t => _process_docx_table t
           end) blocks in
  String.concat nlnl (List.filter nonempty latex_body).

(** ** PDF *)

(** The loop over [pdf.pages]: the escaped text of each page that has
    some, in page order; an exception of [extract_text] ends it. *)
Fixpoint page_texts (pages : list Page) (text_content : list string)
    : result (list string) :=
  match pages with
  | [] => Ok text_content
  | page :: pages' =>
      match extract_text page with
      | Raise e => Raise e
      | Ok (Some (String _ _ as text)) =>
          let clean_text := _escape_latex text in
          page_texts pages' (text_content ++ [clean_text])
      | Ok _ => page_texts pages' text_content
      end
  end.

Definition pdf_warning : string := "% [WARNING: No text extracted from PDF]".

(** ** Markdown *)

(** [code_block_repl], on group 1 of the match. *)
Definition code_block_repl (code : string) : string :=
  "\begin{lstlisting}" +:+ nl +:+ code +:+ nl +:+ "\end{lstlisting}".

(** Steps 1 to 4: the seven substitutions, in the order of the source. *)
Definition md_code_blocks (md : string) : string :=
  re_sub pat_code_block code_block_repl md.

Definition md_inline_code (md : string) : string :=
  re_sub pat_inline_code (template "texttt") md.

Definition md_headers (md : string) : string :=
  let md := re_sub (pat_header "#") (template "section") md in
  let md := re_sub (pat_header "##") (template "subsection") md in
  re_sub (pat_header "###") (template "subsubsection") md.

Definition md_emphasis (md : string) : string :=
  let md := re_sub pat_bold (template "textbf") md in
  re_sub pat_italic (template "textit") md.

(** The pattern of a list line, a dash between optional and mandatory
    white space at the start of the line: [Some content] when [line]
    matches, [content] being the line without the matched marker. *)
Definition list_item (line : string) : option string :=
  match lstrip line with
  | String "-" (String c r) =>
      if isspace c then Some (lstrip r) else None
  | _ => None
  end.

(** Whether a line is a list line. *)
Definition is_list_line (line : string) : bool :=
  match list_item line with
  | Some _ => true
  | None => false
  end.

Definition begin_itemize : string := "\begin{itemize}".
Definition end_itemize : string := "\end{itemize}".

(** The state of the loop of step 5: [in_list] and [processed_lines]. *)
Record list_state : Type := mkListState {
  in_list : bool;
  processed_lines : list string
}.

(** The body of the loop, for one line. *)
Definition list_step (st : list_state) (line : string) : list_state :=
  match list_item line with
  | Some content =>
      let processed_lines :=
        if in_list st then processed_lines st
        else processed_lines st ++ [begin_itemize] in
      mkListState true (processed_lines ++ ["\item " +:+ content])
  | None =>
      let processed_lines :=
        if in_list st then processed_lines st ++ [end_itemize]
        else processed_lines st in
      mkListState false (processed_lines ++ [line])
  end.

(** The loop over the lines. *)
Definition list_loop (lines : list string) : list_state :=
  fold_left list_step lines (mkListState false []).

(** [if in_list: processed_lines.append(r'\end{itemize}')]. *)
Definition list_close (st : list_state) : list string :=
  if in_list st then processed_lines st ++ [end_itemize]
  else processed_lines st.

Definition md_lists (md : string) : string :=
  let lines := Str.split LF md in
  String.concat nl (list_close (list_loop lines)).

(** What [parse_markdown] makes of the text of the file. *)
Definition markdown_body (md : string) : string :=
  md_lists (md_emphasis (md_headers (md_inline_code (md_code_blocks md)))).

(** ** The methods that touch the world *)

Section Methods.
Context {rt : Runtime} {sto : Storage}.

(** Opening a text file with [encoding='utf-8'] and reading it. *)
Definition read_text (path : string) : M string :=
  bytes <- read_bytes path ;;
  lift (utf8_decode bytes).

(** The file at [path] set to [bytes]. *)
Definition set_file (path bytes : string) (st : state) : state :=
  mkState (self st)
    (mkWorld (<[path := bytes]> (fs (outside st))) (stdout (outside st))).

(** [with open(path, 'w', encoding='utf-8') as f: f.write(s)].  What
    [open] raises leaves the files as they were; what the write raises
    leaves the file that [open] has made or emptied. *)
Definition write_text (path s : string) : M unit :=
  fun st =>
    match open_w path with
    | Some e => (Raise e, st)
    | None =>
        match write_w path s with
        | Some (e, partial) => (Raise e, set_file path partial st)
        | None => (Ok tt, set_file path (utf8_encode s) st)
        end
    end.

(** The [try] block of each parser, and the parser that wraps whatever
    the block raises. *)
Definition parse_docx_try : M unit :=
  path <- attr input_path ;;
  doc <- library_open docx_Document path ;;
  assign_content (docx_body doc).

Definition parse_docx : M unit :=
  try_except parse_docx_try (reraise "Error parsing DOCX: ").

Definition parse_pdf_try : M unit :=
  path <- attr input_path ;;
  pages <- library_open pdfplumber_open path ;;
  text_content <- lift (page_texts pages []) ;;
  match text_content with
  | [] =>
      print "Warning: No text extracted. PDF might be scanned/image-only." ;;;
      assign_content pdf_warning
  | _ =>
      let full_text := String.concat nlnl text_content in
      assign_content (Str.replace_char LF " " full_text)
  end.

Definition parse_pdf : M unit :=
  try_except parse_pdf_try (reraise "Error parsing PDF: ").

Definition parse_markdown_try : M unit :=
  path <- attr input_path ;;
  md <- read_text path ;;
  assign_content (markdown_body md).

Definition parse_markdown : M unit :=
  try_except parse_markdown_try (reraise "Error parsing Markdown: ").

Definition parse_txt_try : M unit :=
  path <- attr input_path ;;
  text <- read_text path ;;
  let escaped := _escape_latex text in
  assign_content escaped.

Definition parse_txt : M unit :=
  try_except parse_txt_try (reraise "Error parsing TXT: ").

(** The document assembled in memory from the parsed content. *)
Definition full_document (self : LatexConverter) : string :=
  _get_preamble self +:+ nlnl +:+ content self +:+ nlnl +:+ _get_postamble self.

(** The extension that [convert] dispatches on. *)
Definition detected_ext (self : LatexConverter) : string :=
  lower (snd (splitext (input_path self))).

(** The parser chosen for an extension, or the [ValueError]. *)
Definition dispatch (ext : string) : M unit :=
  if String.eqb ext ".docx" then parse_docx
  else if String.eqb ext ".pdf" then parse_pdf
  else if String.eqb ext ".md" then parse_markdown
  else if String.eqb ext ".txt" then parse_txt
  else raise (ValueError ("Unsupported file type: " +:+ ext)).

(** The end of [convert]: the document is assembled, then written. *)
Definition emit_document : M unit :=
  doc <- attr full_document ;;
  out <- attr output_path ;;
  write_text out doc ;;;
  print ("Conversion successful! Output saved to: " +:+ out).

Definition convert : M unit :=
  ext <- attr detected_ext ;;
  print ("Detected file type: " +:+ ext) ;;;
  dispatch ext ;;;
  emit_document.

End Methods.

(** Running [LatexConverter(input_path, output_path, options).convert()]
    in a world, on the storage [sto]; where no storage is named, that
    is [writable]. *)
Definition run_convert {rt : Runtime} {sto : Storage}
    (input_path output_path : string)
    (options : gmap string pyval) (w : world) : result unit * state :=
  convert (mkState (__init__ input_path output_path options) w).

(** ** Notions of the specification *)

(** The characters the specification calls LaTeX-special. *)
Definition latex_special (c : ascii) : bool := Str.mem c "&%$#_{}~^\".

(** A text in which every LaTeX-special character belongs to an inserted
    sequence: it is built from characters that are not special and from
    the sequences of [chars]. *)
Inductive well_escaped : string -> Prop :=
| we_nil : well_escaped ""
| we_plain (c : ascii) (s : string) :
    latex_special c = false -> well_escaped s -> well_escaped (String c s)
| we_seq (c : ascii) (r s : string) :
    chars_get chars c = Some r -> well_escaped s -> well_escaped (r +:+ s).

(** Reading an escaped text back: a sequence of [chars] stands for its
    character; [skip] counts the characters of a recognised sequence
    still to be passed over. *)
Fixpoint sequence_at (tbl : list (ascii * string)) (s : string)
    : option (ascii * nat) :=
  match tbl with
  | [] => None
  | (c, r) :: tbl' =>
      if Str.startswith r s then Some (c, String.length r)
      else sequence_at tbl' s
  end.

Fixpoint unescape_from (skip : nat) (s : string) : string :=
  match s with
  | "" => ""
  | String c s' =>
      match skip with
      | S k => unescape_from k s'
      | 0 =>
          match sequence_at chars s with
          | Some (d, n) => String d (unescape_from (n - 1) s')
          | None => String c (unescape_from 0 s')
          end
      end
  end.

Definition unescape (s : string) : string := unescape_from 0 s.

(** The number of lines of [ls] that read [x]. *)
Definition count_lines (x : string) (ls : list string) : nat :=
  length (List.filter (String.eqb x) ls).

(** The lines that are no list lines: the loop copies them through. *)
Definition copied_lines (lines : list string) : list string :=
  List.filter (fun line => negb (is_list_line line)) lines.

(** The list structure of a sequence of lines: a line that is no list
    line stands alone, and a maximal run of consecutive list lines is
    one list with the contents of its lines as items, at least one. *)
Inductive md_block : Type :=
| PlainLine (line : string)
| ItemList (first : string) (others : list string).

Fixpoint md_blocks (lines : list string) : list md_block :=
  match lines with
  | [] => []
  | line :: lines' =>
      match list_item line with
      | None => PlainLine line :: md_blocks lines'
      | Some content =>
          match md_blocks lines' with
          | ItemList c cs :: bs => ItemList content (c :: cs) :: bs
          | bs => ItemList content [] :: bs
          end
      end
  end.

(** A list becomes one [itemize] environment with one [\item] per item. *)
Definition render_block (b : md_block) : list string :=
  match b with
  | PlainLine line => [line]
  | ItemList c cs =>
      [begin_itemize] ++ map (fun i => "\item " +:+ i) (c :: cs) ++ [end_itemize]
  end.

Definition is_item_list (b : md_block) : bool :=
  match b with
  | ItemList _ _ => true
  | PlainLine _ => false
  end.

(** No two lists are neighbours: each run of list lines is one list. *)
Fixpoint lists_apart (bs : list md_block) : bool :=
  match bs with
  | b :: ((b' :: _) as bs') =>
      negb (is_item_list b && is_item_list b') && lists_apart bs'
  | _ => true
  end.

(** What the loop of step 5 and the closing test after it append to
    [processed_lines] for the lines still to come, from the state
    [in_list]. *)
Fixpoint list_output (in_list : bool) (lines : list string) : list string :=
  match lines with
  | [] => if in_list then [end_itemize] else []
  | line :: lines' =>
      match list_item line with
      | Some content =>
          (if in_list then [] else [begin_itemize])
          ++ ["\item " +:+ content] ++ list_output true lines'
      | None =>
          (if in_list then [end_itemize] else [])
          ++ [line] ++ list_output false lines'
      end
  end.

(** The lines of a list that is already open, and what follows it. *)
Definition render_open (bs : list md_block) : list string :=
  match bs with
  | ItemList c cs :: bs' =>
      map (fun i => "\item " +:+ i) (c :: cs) ++ [end_itemize]
      ++ flat_map render_block bs'
  | _ => [end_itemize] ++ flat_map render_block bs
  end.

(** The [\begin{itemize}] or [\end{itemize}] lines, [x] being one of
    the two, that [out] has beyond the lines copied through from
    [lines]. *)
Definition added_lines (x : string) (lines out : list string) : Z :=
  (Z.of_nat (count_lines x out) - Z.of_nat (count_lines x (copied_lines lines)))%Z.

(** A line that one of the header patterns matches. *)
Definition is_header_line (line : string) : bool :=
  Str.startswith "# " line || Str.startswith "## " line
  || Str.startswith "### " line.

(** A text that none of the transforms after the first applies to: no
    backtick, no asterisk, and no line that is a header or a list line. *)
Definition markup_free (s : string) : bool :=
  negb (Str.mem "`"%char s) && negb (Str.mem "*"%char s)
  && forallb (fun line => negb (is_header_line line) && negb (is_list_line line))
       (Str.split LF s).

(** [s] differs from the lower-case [ref] only in letter case: the same
    length, and each character is the one of [ref] or its capital. *)
Definition capital (c : ascii) : ascii :=
  let n := nat_of_ascii c in
  if (97 <=? n) && (n <=? 122) then ascii_of_nat (n - 32) else c.

Fixpoint case_variant (ref s : string) : bool :=
  match ref, s with
  | "", "" => true
  | String r ref', String c s' =>
      (Ascii.eqb c r || Ascii.eqb c (capital r)) && case_variant ref' s'
  | _, _ => false
  end.

(** ** The runs of [convert] *)

(** The supported extensions, each with the prefix of its error message
    and the [try] block of its parser. *)
Definition supported : list string := [".docx"; ".pdf"; ".md"; ".txt"].

Definition parser_table {rt : Runtime} : list (string * string * M unit) :=
  [ (".docx", "Error parsing DOCX: ", parse_docx_try);
    (".pdf", "Error parsing PDF: ", parse_pdf_try);
    (".md", "Error parsing Markdown: ", parse_markdown_try);
    (".txt", "Error parsing TXT: ", parse_txt_try) ].

(** The state in which [convert] calls the parser: the object as
    [__init__] made it, and the detected type printed. *)
Definition parser_start (input_path output_path : string)
    (options : gmap string pyval) (w : world) : state :=
  mkState (__init__ input_path output_path options)
    (mkWorld (fs w)
       (stdout w ++
          ["Detected file type: " +:+ lower (snd (splitext input_path))])).

(** The state in which [convert] ends when the parser has set the
    content to [c]: the document written, and the success printed;
    [printed] is what the parser itself printed. *)
Definition converted (input_path output_path : string)
    (options : gmap string pyval) (encode : string -> string)
    (w : world) (c : string) (printed : list string) : state :=
  let obj := mkConverter input_path output_path options c in
  mkState obj
    (mkWorld
       (<[output_path :=
            encode (_get_preamble obj +:+ nlnl +:+ c +:+ nlnl
                    +:+ _get_postamble obj)]> (fs w))
       (stdout w
        ++ ["Detected file type: " +:+ lower (snd (splitext input_path))]
        ++ printed
        ++ ["Conversion successful! Output saved to: " +:+ output_path])).

(** The entry of [parser_table] for an extension, if it is supported. *)
Definition find_parser {rt : Runtime} (ext : string)
    : option (string * string * M unit) :=
  List.find (fun entry => String.eqb ext (fst (fst entry))) parser_table.

(** The content that a run of [convert] leaves in the object. *)
Definition content_after (run : result unit * state) : string :=
  content (self (snd run)).

(** The file that a run of [convert] leaves at [path]. *)
Definition file_after (run : result unit * state) (path : string)
    : option string :=
  fs (outside (snd run)) !! path.

(** ** A run time for the examples *)

(** Text files hold their characters as they are; every path opens as
    the DOCX document [doc] and as the PDF with pages [pages]. *)
Definition example_runtime (doc : result (list block_item))
    (pages : result (list Page)) : Runtime :=
  {| utf8_decode := fun bytes => Ok bytes;
     utf8_encode := fun s => s;
     docx_Document := fun _ => doc;
     pdfplumber_open := fun _ => pages |}.

Definition no_docx : result (list block_item) :=
  Raise (OtherError "Package not found").
Definition no_pdf : result (list Page) :=
  Raise (OtherError "No /Root object! - Is this really a PDF?").

(** A world with one file and nothing printed. *)
Definition one_file (path bytes : string) : world :=
  mkWorld {[ path := bytes ]} [].

(** A scanned PDF, whose two pages yield no text; a PDF with the texts
    [a] and [b] on its two pages; and text files only. *)
Definition scanned_pdf : Runtime :=
  example_runtime no_docx (Ok [mkPage (Ok None); mkPage (Ok (Some ""))]).

Definition two_page_pdf : Runtime :=
  example_runtime no_docx
    (Ok [mkPage (Ok (Some "a")); mkPage (Ok (Some "b"))]).

Definition text_only : Runtime := example_runtime no_docx no_pdf.

(** A DOCX document with one paragraph of two runs, the second bold. *)
Definition one_paragraph_docx : Runtime :=
  example_runtime
    (Ok [BlockParagraph
           (mkParagraph "50% off"
              [mkRun "50% " false false; mkRun "off" true false] "Normal")])
    no_pdf.

(** ** Notions for further properties of the code *)

(** Whether a text has a LaTeX-special character. *)
Fixpoint has_special (t : string) : bool :=
  match t with
  | "" => false
  | String c t' => latex_special c || has_special t'
  end.

(** The characters that follow a backslash in the sequences of [chars]:
    the seven escaped characters, the circumflex, and the [t] of
    [\textasciitilde] and [\textbackslash]. *)
Definition after_backslash : string := "&%$#_{}^t".

(** Every backslash of [s] is followed by one of those characters. *)
Fixpoint backslashes_ok (s : string) : bool :=
  match s with
  | "" => true
  | String c s' =>
      (if Ascii.eqb c "\"
       then match s' with
            | String d _ => Str.mem d after_backslash
            | "" => false
            end
       else true)
      && backslashes_ok s'
  end.

(** The texts of the pages that have some, in page order. *)
Fixpoint page_strings (pages : list Page) : list string :=
  match pages with
  | [] => []
  | page :: pages' =>
      match extract_text page with
      | Ok (Some (String _ _ as text)) => text :: page_strings pages'
      | _ => page_strings pages'
      end
  end.

(** A page whose [extract_text] returns. *)
Definition page_returns (page : Page) : Prop :=
  exists text, extract_text page = Ok text.

(** A PDF whose second page is blank, and one whose second page cannot
    be read. *)
Definition blank_page_pdf : Runtime :=
  example_runtime no_docx
    (Ok [mkPage (Ok (Some "50% off")); mkPage (Ok None);
         mkPage (Ok (Some ("a_b" +:+ nl +:+ "c")))]).

Definition broken_page_pdf : Runtime :=
  example_runtime no_docx
    (Ok [mkPage (Ok (Some "50% off"));
         mkPage (Raise (OtherError "bad stream"));
         mkPage (Ok (Some "c"))]).

(** What a block of a DOCX document is rendered as, and the blocks that
    are rendered at all: the tables and the paragraphs with visible
    text. *)
Definition render_docx_block (block : block_item) : string :=
  match block with
  | BlockParagraph p => _process_docx_paragraph p
  | BlockTable t => _process_docx_table t
  end.

Definition visible_block (block : block_item) : bool :=
  match block with
  | BlockParagraph p => nonempty (strip (para_text p))
  | BlockTable _ => true
  end.

(** A run that is neither bold nor italic, and the runs of a paragraph
    merged into one such run. *)
Definition unstyled (run : Run) : bool :=
  negb (run_bold run) && negb (run_italic run).

Definition merged_run (runs : list Run) : Run :=
  mkRun (String.concat "" (map run_text runs)) false false.

(** The extra packages of the options: the elements of the
    comma-separated list. *)
Definition extra_packages (options : gmap string pyval) : list string :=
  if truthy (dict_get options "packages")
  then Str.split ","%char (fmt (dict_get options "packages"))
  else [].

(** The three header patterns with the command of their replacement
    template. *)
Definition header_levels : list (string * string) :=
  [("#", "section"); ("##", "subsection"); ("###", "subsubsection")].

(** A string of white space only. *)
Fixpoint all_space (s : string) : bool :=
  match s with
  | "" => true
  | String c s' => isspace c && all_space s'
  end.

(** What one header substitution makes of a line, and what the three
    of them make of it one after the other. *)
Definition header_pass_on_line (hashes : string) (repl : string -> string)
    (line : string) : string :=
  match Str.strip_prefix (hashes +:+ " ") line with
  | Some r => repl r
  | None => line
  end.

Definition header_line (line : string) : string :=
  header_pass_on_line "###" (template "subsubsection")
    (header_pass_on_line "##" (template "subsection")
       (header_pass_on_line "#" (template "section") line)).

(** ** The command line: [main] *)

(** The arguments as [parser.parse_args()] returns them: the options
    without a default are [None] when they are not given. *)
Record Namespace : Type := mkNamespace {
  input_file : string;
  output : pyval;
  doc_class : string;
  fontsize : string;
  margins : string;
  packages : pyval;
  custom_preamble : pyval
}.

(** How [main] ends: it returns, or [sys.exit(code)] ends the process. *)
Inductive termination : Type :=
| Returned
| SystemExit (code : Z).

(** What [parser.parse_args()] does with the command line: it returns
    the arguments, or it ends the process itself, with status 0 after
    the help that [-h] asks for and with status 2 after a usage error,
    whose message goes to the standard error; [printed] is what it has
    written to the standard output. *)
Inductive parse_result : Type :=
| Parsed (args : Namespace)
| ParseExit (code : Z) (printed : list string).

(** The parser that [main] builds, on [sys.argv[1:]]. *)
Class CommandLine : Type := {
  parse_args : list string -> parse_result
}.

(** [os.path.exists(path)], in a world that consists of files. *)
Definition exists_path (w : world) (path : string) : bool :=
  match fs w !! path with
  | Some _ => true
  | None => false
  end.

(** The output path when [--output] is not given. *)
Definition default_output (input_path : string) : string :=
  let base_name := fst (splitext input_path) in
  base_name +:+ ".tex".

Definition chosen_output (args : Namespace) : string :=
  if negb (truthy (output args)) then default_output (input_file args)
  else fmt (output args).

(** The dictionary that [main] packs. *)
Definition pack_options (args : Namespace) : gmap string pyval :=
  <["doc_class" := Some (doc_class args)]>
    (<["fontsize" := Some (fontsize args)]>
       (<["margins" := Some (margins args)]>
          (<["packages" := packages args]>
             (<["custom_preamble" := custom_preamble args]> ∅)))).

(** A [print] of [main], outside the converter. *)
Definition print_line (s : string) (w : world) : world :=
  mkWorld (fs w) (stdout w ++ [s]).

Definition main {rt : Runtime} {sto : Storage} {cl : CommandLine}
    (argv : list string) (w : world) : termination * world :=
  match parse_args argv with
  | ParseExit code printed =>
      (SystemExit code, mkWorld (fs w) (stdout w ++ printed))
  | Parsed args =>
      let input_path := input_file args in
      if negb (exists_path w input_path) then
        (SystemExit 1,
         print_line ("Error: File '" +:+ input_path +:+ "' not found.") w)
      else
        let output_path := chosen_output args in
        let options := pack_options args in
        match run_convert input_path output_path options w with
        | (Ok _, st) => (Returned, outside st)
        | (Raise e, st) =>
            (SystemExit 1,
             print_line ("Error during conversion: " +:+ exn_str e)
               (outside st))
        end
  end.

(** A command line for the examples: the input file alone is parsed,
    the options taking their defaults, and anything else counts as a
    usage error. *)
Definition input_only : CommandLine :=
  {| parse_args := fun argv =>
       match argv with
       | [input] =>
           Parsed (mkNamespace input None "article" "12pt" "margin=1in"
                     None None)
       | _ => ParseExit 2 []
       end |}.

(** The line of one table row, as [_process_docx_table] builds it. *)
Definition table_row (row : list string) : string :=
  String.concat " & " (map (fun cell => _escape_latex (strip cell)) row)
  +:+ " \\ \hline".

(** The occurrences of [c] in [s] that no backslash escapes; [esc]
    tells whether the character before [s] is an escaping backslash. *)
Fixpoint bare_from (esc : bool) (c : ascii) (s : string) : nat :=
  match s with
  | "" => 0
  | String d s' =>
      if esc then bare_from false c s'
      else if Ascii.eqb d "\" then bare_from true c s'
      else (if Ascii.eqb d c then 1 else 0) + bare_from false c s'
  end.

Definition bare_count (c : ascii) (s : string) : nat := bare_from false c s.

(** ** Storages for the examples *)

(** A storage whose writes fail like an encoder that rejects the text:
    every path opens, no byte reaches the file. *)
Definition unencodable : Storage :=
  {| open_w := fun _ => None;
     write_w := fun _ _ =>
       Some (OtherError "'utf-8' codec can't encode character", "") |}.

(** A storage on which no path can be opened for writing. *)
Definition no_directory : Storage :=
  {| open_w := fun path =>
       Some (OtherError
               ("[Errno 2] No such file or directory: '" +:+ path +:+ "'"));
     write_w := fun _ _ => None |}.

(** ** The commands of an escaped text *)

(** The sequences that the escaper inserts, each of them a whole
    command: a backslash and one character that is no letter, or a
    control word closed by its empty group. *)
Definition inserted : list string := map snd chars.

(** Whether [s] begins with one of those sequences. *)
Definition starts_inserted (s : string) : bool :=
  existsb (fun r => Str.startswith r s) inserted.

(** Every backslash of [s] begins an inserted sequence. *)
Fixpoint commands_inserted (s : string) : bool :=
  match s with
  | "" => true
  | String c s' =>
      (if Ascii.eqb c "\" then starts_inserted (String c s') else true)
      && commands_inserted s'
  end.

(** * Properties *)

(** What a run produces is stated for the storage [writable], the
    output path being taken as one that can be opened and written.
    The sections [Orchestrator] and [Main] declare a storage of their
    own: what they state about failing runs, and about the files that
    a run leaves behind, holds for every storage. *)

(** ** Strings *)

Lemma app_nil_l (s : string) : "" +:+ s = s.
Proof. reflexivity. Qed.

Lemma app_cons (c : ascii) (s t : string) :
  String c s +:+ t = String c (s +:+ t).
Proof. reflexivity. Qed.

Lemma app_nil_r (s : string) : s +:+ "" = s.
Proof. induction s as [|c s IH]; [reflexivity|]. rewrite app_cons, IH. reflexivity. Qed.

Lemma app_assoc (a b c : string) : (a +:+ b) +:+ c = a +:+ (b +:+ c).
Proof.
  induction a as [|x a IH]; [reflexivity|].
  rewrite !app_cons, IH. reflexivity.
Qed.

Lemma length_app (a b : string) :
  String.length (a +:+ b) = String.length a + String.length b.
Proof.
  induction a as [|x a IH]; [reflexivity|].
  rewrite app_cons. simpl. rewrite IH. reflexivity.
Qed.

Lemma mem_app (c : ascii) (a b : string) :
  Str.mem c (a +:+ b) = Str.mem c a || Str.mem c b.
Proof.
  induction a as [|x a IH]; [reflexivity|].
  rewrite app_cons. simpl. destruct (Ascii.eqb c x); [reflexivity|apply IH].
Qed.

Lemma strip_prefix_app (p s : string) : Str.strip_prefix p (p +:+ s) = Some s.
Proof.
  induction p as [|c p IH]; [reflexivity|].
  rewrite app_cons. simpl. rewrite Ascii.eqb_refl. apply IH.
Qed.

Lemma strip_prefix_Some (p s r : string) :
  Str.strip_prefix p s = Some r -> s = p +:+ r.
Proof.
  revert s. induction p as [|c p IH]; intros s H; simpl in H.
  - injection H as ->. reflexivity.
  - destruct s as [|d s]; [discriminate|].
    destruct (Ascii.eqb_spec c d) as [->|]; [|discriminate].
    rewrite app_cons. f_equal. apply IH, H.
Qed.

(** [Str.contains] decides [Str.occurs]. *)
Lemma contains_occurs (p s : string) :
  Str.contains p s = true <-> Str.occurs p s.
Proof.
  split.
  - induction s as [|c s IH]; simpl; unfold Str.startswith.
    + destruct (Str.strip_prefix p "") as [r|] eqn:E; [|discriminate].
      intros _. exists "", r. apply strip_prefix_Some in E. exact E.
    + destruct (Str.strip_prefix p (String c s)) as [r|] eqn:E.
      * intros _. exists "", r. apply strip_prefix_Some in E. exact E.
      * intros H. destruct (IH H) as (a & b & ->).
        exists (String c a), b. reflexivity.
  - intros (a & b & ->). induction a as [|c a IH].
    + rewrite app_nil_l. destruct (p +:+ b) eqn:E; simpl; unfold Str.startswith;
        rewrite <- E, strip_prefix_app; reflexivity.
    + rewrite app_cons. simpl. rewrite IH.
      destruct (Str.startswith p _); reflexivity.
Qed.

(** ** The escaper *)

Lemma escape_latex_eq (t : string) : _escape_latex t = pattern_sub t.
Proof. destruct t; reflexivity. Qed.

Lemma pattern_sub_cons (c : ascii) (t : string) :
  pattern_sub (String c t) =
    match chars_get chars c with
    | Some r => r +:+ pattern_sub t
    | None => String c (pattern_sub t)
    end.
Proof. reflexivity. Qed.

Lemma pattern_sub_app (a b : string) :
  pattern_sub (a +:+ b) = pattern_sub a +:+ pattern_sub b.
Proof.
  induction a as [|c a IH]; [reflexivity|].
  rewrite app_cons, !pattern_sub_cons.
  destruct (chars_get chars c) as [r|].
  - rewrite IH, app_assoc. reflexivity.
  - rewrite IH. reflexivity.
Qed.

(** The keys of [chars] are the special characters. *)
Lemma chars_get_special (c : ascii) :
  latex_special c = match chars_get chars c with Some _ => true | None => false end.
Proof.
  unfold latex_special, chars. simpl.
  repeat match goal with
         | |- context [Ascii.eqb c ?k] => destruct (Ascii.eqb c k); [reflexivity|]
         end.
  reflexivity.
Qed.

Lemma chars_get_In (c : ascii) (r : string) :
  chars_get chars c = Some r -> In (c, r) chars.
Proof.
  unfold chars. simpl.
  repeat match goal with
         | |- context [Ascii.eqb c ?k] =>
             destruct (Ascii.eqb_spec c k) as [->|];
             [intros [= <-]; auto 12|]
         end.
  discriminate.
Qed.

Lemma pattern_sub_well_escaped (t : string) : well_escaped (pattern_sub t).
Proof.
  induction t as [|c t IH]; [constructor|].
  rewrite pattern_sub_cons.
  destruct (chars_get chars c) as [r|] eqn:E.
  - apply (we_seq c); assumption.
  - apply we_plain; [|assumption]. rewrite chars_get_special, E. reflexivity.
Qed.

Lemma unescape_sequence (c : ascii) (r x : string) :
  In (c, r) chars -> unescape_from 0 (r +:+ x) = String c (unescape_from 0 x).
Proof.
  unfold chars. simpl. intros H.
  repeat (destruct H as [[= <- <-]|H]; [reflexivity|]).
  destruct H.
Qed.

Lemma startswith_cons_ne (a c : ascii) (r x : string) :
  Ascii.eqb a c = false -> Str.startswith (String a r) (String c x) = false.
Proof. intros H. unfold Str.startswith. cbn [Str.strip_prefix]. rewrite H. reflexivity. Qed.

Lemma sequence_at_plain (c : ascii) (x : string) :
  Ascii.eqb "\" c = false -> sequence_at chars (String c x) = None.
Proof.
  intros H. unfold chars. cbn [sequence_at].
  rewrite !startswith_cons_ne by exact H. reflexivity.
Qed.

Lemma unescape_from_cons (c : ascii) (s : string) :
  unescape_from 0 (String c s) =
    match sequence_at chars (String c s) with
    | Some (d, n) => String d (unescape_from (n - 1) s)
    | None => String c (unescape_from 0 s)
    end.
Proof. reflexivity. Qed.

Lemma unescape_plain (c : ascii) (x : string) :
  chars_get chars c = None ->
  unescape_from 0 (String c x) = String c (unescape_from 0 x).
Proof.
  intros H.
  assert (Hc : Ascii.eqb "\"%char c = false).
  { pose proof (chars_get_special c) as Hs. rewrite H in Hs.
    unfold latex_special in Hs. cbn [Str.mem] in Hs.
    rewrite Ascii.eqb_sym.
    repeat match type of Hs with
           | context [Ascii.eqb c ?k] =>
               destruct (Ascii.eqb c k) eqn:?; [discriminate|]
           end.
    reflexivity. }
  rewrite unescape_from_cons, sequence_at_plain by exact Hc. reflexivity.
Qed.

Lemma unescape_pattern_sub (t : string) : unescape (pattern_sub t) = t.
Proof.
  unfold unescape. induction t as [|c t IH]; [reflexivity|].
  rewrite pattern_sub_cons. destruct (chars_get chars c) as [r|] eqn:E.
  - rewrite (unescape_sequence c r) by (apply chars_get_In, E).
    rewrite IH. reflexivity.
  - rewrite unescape_plain by exact E. rewrite IH. reflexivity.
Qed.

(** C3. The escaper is a total function, with [_escape_latex ""] the
    empty string.  It works in one pass over the original text: the
    escape of a concatenation is the concatenation of the escapes, and
    the escape of one character is its sequence from [chars] (a
    backslash and the character for [& % $ # _ { }], and the command
    forms [\textasciitilde{}], [\^{}] and [\textbackslash{}]) or, for
    any other character, the character itself; so an inserted sequence
    is never scanned again.  In the result every special character
    belongs to an inserted sequence, and the original text can be read
    back from it. *)
Theorem escape_latex_single_pass :
  _escape_latex "" = ""
  /\ (forall a b : string,
        _escape_latex (a +:+ b) = _escape_latex a +:+ _escape_latex b)
  /\ (forall c : ascii,
        _escape_latex (String c "") =
          if latex_special c
          then if Ascii.eqb c "~" then "\textasciitilde{}"
               else if Ascii.eqb c "^" then "\^{}"
               else if Ascii.eqb c "\" then "\textbackslash{}"
               else String "\" (String c "")
          else String c "")
  /\ (forall t : string, well_escaped (_escape_latex t))
  /\ (forall t : string, unescape (_escape_latex t) = t).
Proof.
  split; [reflexivity|]. split; [|split; [|split]].
  - intros a b. rewrite !escape_latex_eq. apply pattern_sub_app.
  - intros c. unfold latex_special, _escape_latex, pattern_sub, chars. simpl.
    repeat match goal with
           | |- context [Ascii.eqb c ?k] =>
               destruct (Ascii.eqb_spec c k) as [->|]; [reflexivity|]
           end.
    reflexivity.
  - intros t. rewrite escape_latex_eq. apply pattern_sub_well_escaped.
  - intros t. rewrite escape_latex_eq. apply unescape_pattern_sub.
Qed.

(** ** The list state machine of [parse_markdown] *)

Lemma list_loop_from (lines : list string) (st : list_state) :
  list_close (fold_left list_step lines st) =
    processed_lines st ++ list_output (in_list st) lines.
Proof.
  revert st. induction lines as [|line lines IH]; intros st.
  - simpl. unfold list_close. destruct (in_list st); [reflexivity|].
    rewrite List.app_nil_r. reflexivity.
  - cbn [fold_left list_output]. rewrite IH. unfold list_step.
    destruct (list_item line) as [content|]; cbn [in_list processed_lines];
      destruct (in_list st); rewrite <- ?List.app_assoc; reflexivity.
Qed.

Lemma list_output_blocks (lines : list string) :
  list_output false lines = flat_map render_block (md_blocks lines)
  /\ list_output true lines = render_open (md_blocks lines).
Proof.
  induction lines as [|line lines [IHf IHt]]; [split; reflexivity|].
  cbn [list_output md_blocks].
  destruct (list_item line) as [content|].
  - rewrite IHt.
    destruct (md_blocks lines) as [|[l|c cs] bs]; split;
      cbn [flat_map render_block render_open map List.app];
      rewrite <- ?List.app_assoc; reflexivity.
  - rewrite IHf. split; reflexivity.
Qed.

Lemma md_blocks_apart (lines : list string) : lists_apart (md_blocks lines) = true.
Proof.
  induction lines as [|line lines IH]; [reflexivity|].
  cbn [md_blocks]. destruct (list_item line) as [content|].
  - destruct (md_blocks lines) as [|[l|c cs] bs]; [reflexivity|exact IH|].
    destruct bs; [reflexivity|exact IH].
  - destruct (md_blocks lines) as [|b bs]; [reflexivity|]. exact IH.
Qed.

Lemma count_lines_app (x : string) (a b : list string) :
  count_lines x (a ++ b) = count_lines x a + count_lines x b.
Proof. unfold count_lines. rewrite List.filter_app, List.length_app. reflexivity. Qed.

Lemma copied_lines_snoc (lines : list string) (line : string) :
  copied_lines (lines ++ [line]) =
    copied_lines lines ++ (if is_list_line line then [] else [line]).
Proof.
  unfold copied_lines. rewrite List.filter_app. f_equal.
  cbn [List.filter]. destruct (is_list_line line); reflexivity.
Qed.

Lemma count_item_line (x content : string) :
  x = begin_itemize \/ x = end_itemize ->
  count_lines x ["\item " +:+ content] = 0.
Proof. intros [->| ->]; reflexivity. Qed.

Lemma list_loop_balance (x y : string) (lines : list string) :
  x = begin_itemize -> y = end_itemize ->
  (added_lines x lines (processed_lines (list_loop lines))
   - added_lines y lines (processed_lines (list_loop lines))
   = if in_list (list_loop lines) then 1 else 0)%Z.
Proof.
  intros -> ->. unfold added_lines, list_loop.
  induction lines as [|line lines IH] using rev_ind; [reflexivity|].
  rewrite fold_left_app. cbn [fold_left].
  rewrite copied_lines_snoc, !count_lines_app.
  set (st := fold_left list_step lines _) in *.
  unfold list_step, is_list_line.
  destruct (list_item line) as [content|]; cbn [in_list processed_lines];
    destruct (in_list st); rewrite ?count_lines_app, ?count_item_line by auto;
    change (count_lines begin_itemize [begin_itemize]) with 1;
    change (count_lines end_itemize [begin_itemize]) with 0;
    change (count_lines begin_itemize [end_itemize]) with 0;
    change (count_lines end_itemize [end_itemize]) with 1;
    change (count_lines begin_itemize []) with 0;
    change (count_lines end_itemize []) with 0;
    lia.
Qed.

(** C4, as amended.  Count the [\begin{itemize}] and [\end{itemize}]
    lines that the state machine adds, that is, those of
    [processed_lines] beyond the lines it copied through.  After each
    line (the property holds for every list of lines, so for every
    prefix of the input) the added openings minus the added closings
    are 1 when [in_list] holds and 0 otherwise; after the closing test
    they are equal in number.  The final lines are those of the list
    structure of the input: every maximal run of consecutive list lines
    is one [itemize] environment with one [\item] per line of the run,
    at least one, and no two environments are neighbours. *)
Theorem list_machine_groups_items :
  (forall lines : list string,
     let st := list_loop lines in
     (added_lines begin_itemize lines (processed_lines st)
      - added_lines end_itemize lines (processed_lines st)
      = if in_list st then 1 else 0)%Z
     /\ added_lines begin_itemize lines (list_close st)
        = added_lines end_itemize lines (list_close st)
     /\ list_close st = flat_map render_block (md_blocks lines)
     /\ lists_apart (md_blocks lines) = true)
  /\ (forall md : string,
        md_lists md =
          String.concat nl (flat_map render_block (md_blocks (Str.split LF md)))).
Proof.
  assert (Hblocks : forall lines,
             list_close (list_loop lines) = flat_map render_block (md_blocks lines)).
  { intros lines. unfold list_loop. rewrite list_loop_from.
    apply (list_output_blocks lines). }
  split.
  - intros lines st.
    pose proof (list_loop_balance begin_itemize end_itemize lines eq_refl eq_refl) as Hbal.
    fold st in Hbal. split; [exact Hbal|]. split; [|split].
    + unfold added_lines in *. unfold list_close.
      destruct (in_list st); [|lia].
      rewrite !count_lines_app.
      change (count_lines begin_itemize [end_itemize]) with 0.
      change (count_lines end_itemize [end_itemize]) with 1.
      lia.
    + apply Hblocks.
    + apply md_blocks_apart.
  - intros md. unfold md_lists. rewrite Hblocks. reflexivity.
Qed.

(** C4 as it is stated fails on a line of the input that itself reads
    [\end{itemize}]: the line is copied through, so the output has one
    closing line and no opening line. *)
Lemma itemize_text_count_unbalanced :
  let st := list_loop (Str.split LF "\end{itemize}") in
  (Z.of_nat (count_lines begin_itemize (processed_lines st))
   - Z.of_nat (count_lines end_itemize (processed_lines st)))%Z
    <> (if in_list st then 1 else 0)%Z
  /\ count_lines begin_itemize (list_close st)
     <> count_lines end_itemize (list_close st)
  /\ md_lists "\end{itemize}" = "\end{itemize}".
Proof. vm_compute. repeat split; discriminate. Qed.

(** ** Substitution where the pattern does not match *)

Section ReSub.
Variables (m : matcher) (repl : string -> string).

(** A pattern without [^] does not look at the line structure. *)
Hypothesis m_no_anchor : forall (b b' : bool) (s : string), m b s = m b' s.

Lemma re_sub_from_bol (b b' : bool) (skip : nat) (s : string) :
  re_sub_from m repl b skip s = re_sub_from m repl b' skip s.
Proof.
  revert b b' skip. induction s as [|c s IH]; intros b b' skip; [reflexivity|].
  cbn [re_sub_from]. destruct skip as [|k]; [|reflexivity].
  rewrite (m_no_anchor b b'). reflexivity.
Qed.

(** Passing over the rest of a match. *)
Lemma re_sub_from_skip (b : bool) (x y : string) :
  re_sub_from m repl b (String.length x) (x +:+ y) = re_sub_from m repl b 0 y.
Proof.
  revert b. induction x as [|c x IH]; intros b.
  - destruct y; reflexivity.
  - rewrite app_cons. cbn [String.length re_sub_from]. rewrite IH.
    apply re_sub_from_bol.
Qed.

(** A pattern whose first character is the literal [q] copies a text
    without [q]. *)
Variable q : ascii.
Hypothesis m_first : forall (b : bool) (c : ascii) (s : string),
  Ascii.eqb c q = false -> m b (String c s) = None.

Lemma re_sub_from_copy (b : bool) (pre rest : string) :
  Str.mem q pre = false ->
  re_sub_from m repl b 0 (pre +:+ rest) = pre +:+ re_sub_from m repl b 0 rest.
Proof.
  revert b. induction pre as [|c pre IH]; intros b H; [reflexivity|].
  cbn [Str.mem] in H. rewrite app_cons. cbn [re_sub_from].
  rewrite Ascii.eqb_sym in H.
  destruct (Ascii.eqb c q) eqn:E; [discriminate|].
  rewrite (m_first b c _ E), (IH _ H).
  rewrite (re_sub_from_bol _ b). reflexivity.
Qed.

Lemma re_sub_copy (s : string) : Str.mem q s = false -> re_sub m repl s = s.
Proof.
  intros H. unfold re_sub.
  rewrite <- (app_nil_r s) at 1. rewrite re_sub_from_copy by exact H.
  apply app_nil_r.
Qed.

End ReSub.

Lemma strip_prefix_first (p : string) (a c : ascii) (s : string) :
  Ascii.eqb c a = false -> Str.strip_prefix (String a p) (String c s) = None.
Proof.
  intros H. cbn [Str.strip_prefix]. rewrite Ascii.eqb_sym, H. reflexivity.
Qed.

Lemma delimited_no_anchor (dotall : bool) (open close : string) (b b' : bool)
    (s : string) :
  delimited dotall open close b s = delimited dotall open close b' s.
Proof. reflexivity. Qed.

Lemma delimited_first (dotall : bool) (a : ascii) (open close : string)
    (b : bool) (c : ascii) (s : string) :
  Ascii.eqb c a = false ->
  delimited dotall (String a open) close b (String c s) = None.
Proof.
  intros H. unfold delimited. rewrite strip_prefix_first by exact H. reflexivity.
Qed.

Lemma pat_inline_code_first (b : bool) (c : ascii) (s : string) :
  Ascii.eqb c "`" = false -> pat_inline_code b (String c s) = None.
Proof.
  intros H. unfold pat_inline_code.
  destruct c as [[] [] [] [] [] [] [] []]; try reflexivity; discriminate.
Qed.

(** ** The first transform on a fenced block *)

Lemma lazy_until_fence (code post : string) :
  Str.mem "`" code = false ->
  lazy_until true "```" (code +:+ "```" +:+ post) = Some code.
Proof.
  intros H. induction code as [|c code IH]; [reflexivity|].
  cbn [Str.mem] in H. destruct (Ascii.eqb "`" c) eqn:E; [discriminate|].
  rewrite app_cons. cbn [lazy_until].
  rewrite strip_prefix_first by (rewrite Ascii.eqb_sym; exact E).
  cbn [negb andb]. rewrite (IH H). reflexivity.
Qed.

Lemma md_code_blocks_fence (pre code post : string) :
  Str.mem "`" pre = false -> Str.mem "`" code = false ->
  md_code_blocks (pre +:+ "```" +:+ code +:+ "```" +:+ post) =
    pre +:+ code_block_repl code +:+ md_code_blocks post.
Proof.
  intros Hpre Hcode. unfold md_code_blocks, re_sub.
  rewrite (re_sub_from_copy pat_code_block code_block_repl
             (delimited_no_anchor true "```" "```") "`"
             (delimited_first true "`" "``" "```")) by exact Hpre.
  f_equal.
  change ("```" +:+ code +:+ "```" +:+ post)
    with (String "`" ("``" +:+ code +:+ "```" +:+ post)).
  cbn [re_sub_from].
  replace (pat_code_block true (String "`" ("``" +:+ code +:+ "```" +:+ post)))
    with (Some (code, 3 + String.length code + 3)).
  2: { unfold pat_code_block, delimited.
       change (String "`" ("``" +:+ code +:+ "```" +:+ post))
         with ("```" +:+ (code +:+ "```" +:+ post)).
       rewrite strip_prefix_app, lazy_until_fence by exact Hcode. reflexivity. }
  f_equal.
  replace (3 + String.length code + 3 - 1)
    with (String.length ("``" +:+ code +:+ "```"))
    by (rewrite !length_app; simpl; lia).
  replace ("``" +:+ code +:+ "```" +:+ post)
    with (("``" +:+ code +:+ "```") +:+ post)
    by (rewrite !app_assoc; reflexivity).
  rewrite (re_sub_from_skip _ _ (delimited_no_anchor true "```" "```")).
  apply (re_sub_from_bol _ _ (delimited_no_anchor true "```" "```")).
Qed.

(** ** Lines *)

Lemma split_nonempty (s : string) : Str.split LF s <> [].
Proof.
  destruct s as [|d s]; [discriminate|]. cbn [Str.split].
  destruct (Ascii.eqb d LF); [discriminate|].
  destruct (Str.split LF s); discriminate.
Qed.

Lemma split_cons (c : ascii) (s : string) :
  Str.split LF (String c s) =
    if Ascii.eqb c LF then "" :: Str.split LF s
    else String c (hd "" (Str.split LF s)) :: tl (Str.split LF s).
Proof.
  cbn [Str.split]. destruct (Ascii.eqb c LF); [reflexivity|].
  pose proof (split_nonempty s) as H.
  destruct (Str.split LF s); [contradiction|reflexivity].
Qed.

Lemma join_split (s : string) : String.concat nl (Str.split LF s) = s.
Proof.
  induction s as [|c s IH]; [reflexivity|].
  rewrite split_cons. pose proof (split_nonempty s) as Hne.
  destruct (Str.split LF s) as [|l ls]; [contradiction|].
  destruct (Ascii.eqb_spec c LF) as [->|Hc].
  - change (String LF (String.concat nl (l :: ls)) = String LF s).
    rewrite IH. reflexivity.
  - cbn [hd tl]. destruct ls as [|l' ls].
    + change (String c (String.concat nl [l]) = String c s).
      rewrite IH. reflexivity.
    + change (String c (String.concat nl (l :: l' :: ls)) = String c s).
      rewrite IH. reflexivity.
Qed.

Lemma startswith_first_line (p s : string) :
  Str.mem LF p = false ->
  Str.startswith p (hd "" (Str.split LF s)) = Str.startswith p s.
Proof.
  revert s. induction p as [|a p IH]; intros s H; [reflexivity|].
  cbn [Str.mem] in H. destruct (Ascii.eqb LF a) eqn:Ea; [discriminate|].
  destruct s as [|c s]; [reflexivity|].
  rewrite split_cons. destruct (Ascii.eqb_spec c LF) as [->|Hc].
  - unfold Str.startswith. cbn [hd Str.strip_prefix].
    rewrite Ascii.eqb_sym, Ea. reflexivity.
  - cbn [hd]. unfold Str.startswith in *. cbn [Str.strip_prefix].
    destruct (Ascii.eqb a c); [apply IH, H|reflexivity].
Qed.

(** A header pattern copies a text none of whose lines it matches. *)
Lemma re_sub_header_copy (hashes : string) (repl : string -> string)
    (s : string) (b : bool) :
  Str.mem LF (hashes +:+ " ") = false ->
  forallb (fun line => negb (Str.startswith (hashes +:+ " ") line))
    (if b then Str.split LF s else tl (Str.split LF s)) = true ->
  re_sub_from (pat_header hashes) repl b 0 s = s.
Proof.
  intros Hp. revert b. induction s as [|c s IH]; intros b H; [reflexivity|].
  rewrite split_cons in H. cbn [re_sub_from].
  assert (Hnone : pat_header hashes b (String c s) = None).
  { unfold pat_header. destruct b; [|reflexivity].
    assert (Hs : Str.startswith (hashes +:+ " ") (String c s) = false).
    { rewrite <- (startswith_first_line _ _ Hp), split_cons.
      destruct (Ascii.eqb c LF); cbn [forallb hd] in *;
        apply andb_true_iff in H as [H _]; apply negb_true_iff in H; exact H. }
    unfold Str.startswith in Hs.
    destruct (Str.strip_prefix _ _); [discriminate|reflexivity]. }
  rewrite Hnone. f_equal. apply IH.
  destruct (Ascii.eqb c LF), b; cbn [forallb tl] in *;
    try exact H; apply andb_true_iff in H as [_ H]; exact H.
Qed.

Lemma forallb_weaken {A} (f g : A -> bool) (l : list A) :
  (forall x, f x = true -> g x = true) ->
  forallb f l = true -> forallb g l = true.
Proof.
  intros Hfg. induction l as [|x l IH]; [reflexivity|].
  cbn [forallb]. intros [Hx Hl]%andb_true_iff.
  rewrite (Hfg _ Hx), (IH Hl). reflexivity.
Qed.

Lemma md_headers_copy (s : string) :
  forallb (fun line => negb (is_header_line line)) (Str.split LF s) = true ->
  md_headers s = s.
Proof.
  intros H. unfold md_headers, re_sub.
  rewrite (re_sub_header_copy "#" _ s true), (re_sub_header_copy "##" _ s true),
    (re_sub_header_copy "###" _ s true); try reflexivity;
    revert H; apply forallb_weaken; intros line; unfold is_header_line;
    rewrite !negb_orb, !andb_true_iff; tauto.
Qed.

(** The list loop copies lines none of which is a list line. *)
Lemma list_output_copy (lines : list string) :
  forallb (fun line => negb (is_list_line line)) lines = true ->
  list_output false lines = lines.
Proof.
  induction lines as [|line lines IH]; [reflexivity|].
  cbn [forallb list_output]. unfold is_list_line at 1.
  intros [Hl Hls]%andb_true_iff.
  destruct (list_item line); [discriminate|].
  rewrite (IH Hls). reflexivity.
Qed.

Lemma md_lists_copy (s : string) :
  forallb (fun line => negb (is_list_line line)) (Str.split LF s) = true ->
  md_lists s = s.
Proof.
  intros H. unfold md_lists, list_loop.
  rewrite list_loop_from. cbn [processed_lines in_list List.app].
  rewrite (list_output_copy _ H). apply join_split.
Qed.

(** Transforms 2 to 5 leave a text without markup as it is. *)
Lemma markup_free_copy (s : string) :
  markup_free s = true ->
  md_lists (md_emphasis (md_headers (md_inline_code s))) = s.
Proof.
  unfold markup_free. rewrite !andb_true_iff, !negb_true_iff.
  intros [[Hq Hstar] Hlines].
  unfold md_inline_code.
  rewrite (re_sub_copy pat_inline_code _ (fun _ _ _ => eq_refl) "`"
             pat_inline_code_first) by exact Hq.
  rewrite md_headers_copy
    by (revert Hlines; apply forallb_weaken; intros l;
        rewrite andb_true_iff; tauto).
  unfold md_emphasis.
  rewrite (re_sub_copy pat_bold _ (delimited_no_anchor false "**" "**") "*"
             (delimited_first false "*" "*" "**")) by exact Hstar.
  rewrite (re_sub_copy pat_italic _ (delimited_no_anchor false "*" "*") "*"
             (delimited_first false "*" "" "*")) by exact Hstar.
  apply md_lists_copy.
  revert Hlines; apply forallb_weaken; intros l; rewrite andb_true_iff; tauto.
Qed.

(** A fenced block between two texts: when the whole text, the fenced
    content wrapped, has no markup, the body is that text. *)
Lemma fenced_block_between_plain_text (pre code post : string) :
  markup_free (pre +:+ code_block_repl code +:+ post) = true ->
  md_code_blocks (pre +:+ "```" +:+ code +:+ "```" +:+ post)
    = pre +:+ code_block_repl code +:+ post
  /\ markdown_body (pre +:+ "```" +:+ code +:+ "```" +:+ post)
    = pre +:+ "\begin{lstlisting}" +:+ nl +:+ code +:+ nl
        +:+ "\end{lstlisting}" +:+ post.
Proof.
  intros Hfree.
  assert (Hq : Str.mem "`" (pre +:+ code_block_repl code +:+ post) = false).
  { unfold markup_free in Hfree.
    apply andb_true_iff in Hfree as [Hfree _].
    apply andb_true_iff in Hfree as [Hfree _].
    apply negb_true_iff in Hfree. exact Hfree. }
  unfold code_block_repl in Hq. rewrite !mem_app, !orb_false_iff in Hq.
  destruct Hq as (Hpre & (_ & _ & Hcode & _ & _) & Hpost).
  assert (Hfirst : md_code_blocks (pre +:+ "```" +:+ code +:+ "```" +:+ post)
                   = pre +:+ code_block_repl code +:+ post).
  { rewrite md_code_blocks_fence by assumption. do 2 f_equal.
    apply (re_sub_copy pat_code_block _ (delimited_no_anchor true "```" "```")
             "`" (delimited_first true "`" "``" "```")), Hpost. }
  split; [exact Hfirst|].
  unfold markdown_body. rewrite Hfirst. rewrite markup_free_copy by exact Hfree.
  unfold code_block_repl. rewrite !app_assoc. reflexivity.
Qed.

(** ** Lines, and the header substitution where it does not match *)

Lemma split_app_nl (a b : string) :
  Str.split LF (a +:+ nl +:+ b) = Str.split LF a ++ Str.split LF b.
Proof.
  induction a as [|c a IH]; [reflexivity|].
  rewrite app_cons, !split_cons, IH.
  destruct (Ascii.eqb c LF); [reflexivity|].
  pose proof (split_nonempty a) as Hne.
  destruct (Str.split LF a); [contradiction|reflexivity].
Qed.

Lemma split_line_prefix (x z : string) :
  Str.mem LF x = false ->
  Str.split LF (x +:+ z) =
    (x +:+ hd "" (Str.split LF z)) :: tl (Str.split LF z).
Proof.
  intros H. induction x as [|c x IH].
  - rewrite !app_nil_l. pose proof (split_nonempty z) as Hne.
    destruct (Str.split LF z); [contradiction|reflexivity].
  - cbn [Str.mem] in H. destruct (Ascii.eqb LF c) eqn:E; [discriminate|].
    rewrite app_cons, split_cons, Ascii.eqb_sym, E, (IH H). reflexivity.
Qed.

Lemma concat_app (sep : string) (a b : list string) :
  a <> [] -> b <> [] ->
  String.concat sep (a ++ b) = String.concat sep a +:+ sep +:+ String.concat sep b.
Proof.
  intros Ha Hb. induction a as [|x a IH]; [contradiction|].
  destruct a as [|y a].
  - destruct b; [contradiction|reflexivity].
  - change (String.concat sep ((x :: y :: a) ++ b))
      with (x +:+ sep +:+ String.concat sep ((y :: a) ++ b)).
    rewrite IH by discriminate.
    change (String.concat sep (x :: y :: a))
      with (x +:+ sep +:+ String.concat sep (y :: a)).
    rewrite !app_assoc. reflexivity.
Qed.

Lemma list_output_app (a b : list string) :
  forallb (fun line => negb (is_list_line line)) a = true ->
  list_output false (a ++ b) = a ++ list_output false b.
Proof.
  induction a as [|line a IH]; [reflexivity|].
  cbn [forallb List.app list_output]. unfold is_list_line at 1.
  intros [Hl Ha]%andb_true_iff.
  destruct (list_item line); [discriminate|].
  rewrite (IH Ha). reflexivity.
Qed.

Lemma header_pass_prefix (hashes : string) (repl : string -> string)
    (s : string) (b : bool) (x : string) :
  Str.startswith "#" (hashes +:+ " ") = true ->
  Str.mem LF (hashes +:+ " ") = false ->
  forallb (fun line => negb (Str.startswith (hashes +:+ " ") line))
    (if b then Str.split LF s else tl (Str.split LF s)) = true ->
  re_sub_from (pat_header hashes) repl b 0 (s +:+ nl +:+ x) =
    s +:+ nl +:+ re_sub_from (pat_header hashes) repl true 0 x.
Proof.
  intros Hhash Hp. revert b. induction s as [|c s IH]; intros b H.
  - rewrite app_nil_l. unfold nl. rewrite !app_cons, !app_nil_l.
    cbn [re_sub_from].
    replace (pat_header hashes b (String LF x)) with (@None (string * nat)).
    + reflexivity.
    + unfold pat_header. destruct b; [|reflexivity].
      destruct (hashes +:+ " ") as [|a h]; [discriminate|].
      unfold Str.startswith in Hhash. cbn [Str.strip_prefix] in *.
      destruct (Ascii.eqb_spec "#" a) as [<-|]; [reflexivity|discriminate].
  - rewrite split_cons in H. rewrite !app_cons. cbn [re_sub_from].
    assert (Hnone : pat_header hashes b (String c (s +:+ nl +:+ x)) = None).
    { unfold pat_header. destruct b; [|reflexivity].
      assert (Hs : Str.startswith (hashes +:+ " ")
                     (String c (s +:+ nl +:+ x)) = false).
      { rewrite <- (startswith_first_line _ _ Hp).
        change (String c (s +:+ nl +:+ x)) with (String c s +:+ nl +:+ x).
        rewrite split_app_nl, split_cons.
        destruct (Ascii.eqb c LF); cbn [forallb hd List.app] in *;
          apply andb_true_iff in H as [H _]; apply negb_true_iff in H; exact H. }
      unfold Str.startswith in Hs.
      destruct (Str.strip_prefix _ _); [discriminate|reflexivity]. }
    rewrite Hnone. f_equal. apply IH.
    destruct (Ascii.eqb c LF), b; cbn [forallb tl] in *;
      try exact H; apply andb_true_iff in H as [_ H]; exact H.
Qed.

Lemma header_pass_line (hashes : string) (repl : string -> string)
    (x z : string) :
  Str.mem LF x = false ->
  re_sub_from (pat_header hashes) repl false 0 (x +:+ z) =
    x +:+ re_sub_from (pat_header hashes) repl false 0 z.
Proof.
  intros H. induction x as [|c x IH]; [reflexivity|].
  cbn [Str.mem] in H. destruct (Ascii.eqb LF c) eqn:E; [discriminate|].
  rewrite app_cons. cbn [re_sub_from pat_header].
  rewrite Ascii.eqb_sym, E, (IH H). reflexivity.
Qed.

Lemma header_pass_line_start (hashes : string) (repl : string -> string)
    (c : ascii) (x z : string) :
  Str.startswith "#" (hashes +:+ " ") = true ->
  Ascii.eqb "#" c = false ->
  Str.mem LF (String c x) = false ->
  re_sub_from (pat_header hashes) repl true 0 (String c x +:+ z) =
    String c x +:+ re_sub_from (pat_header hashes) repl false 0 z.
Proof.
  intros Hhash Hc Hlf. cbn [Str.mem] in Hlf.
  destruct (Ascii.eqb LF c) eqn:E; [discriminate|].
  rewrite !app_cons. cbn [re_sub_from].
  assert (Hnone : pat_header hashes true (String c (x +:+ z)) = None).
  { unfold pat_header.
    destruct (hashes +:+ " ") as [|a h]; [discriminate|].
    unfold Str.startswith in Hhash. cbn [Str.strip_prefix] in *.
    destruct (Ascii.eqb_spec "#" a) as [<-|]; [|discriminate].
    rewrite Hc. reflexivity. }
  rewrite Hnone, Ascii.eqb_sym, E, (header_pass_line _ _ _ _ Hlf).
  reflexivity.
Qed.

(** ** Fenced content and the later transforms *)

(** Two fenced blocks, evaluated: fenced content with [#] at the start
    of a line is matched by the header transform, and fenced content
    between asterisks by the emphasis transform, so neither content is
    in the produced body. *)
Lemma fenced_content_rewritten :
  markdown_body ("```" +:+ nl +:+ "# x" +:+ nl +:+ "```")
    = "\begin{lstlisting}" +:+ nl +:+ nl +:+ "\section{x}" +:+ nl +:+ nl
        +:+ "\end{lstlisting}"
  /\ ~ Str.occurs (nl +:+ "# x" +:+ nl)
         (markdown_body ("```" +:+ nl +:+ "# x" +:+ nl +:+ "```"))
  /\ ~ Str.occurs "a*b*c" (markdown_body "```a*b*c```").
Proof.
  split; [vm_compute; reflexivity|].
  split; intros H%contains_occurs; vm_compute in H; discriminate.
Qed.

(** ** The orchestrator *)

Ltac run_methods :=
  unfold run_convert, convert, emit_document, dispatch,
    parse_docx, parse_docx_try, parse_pdf, parse_pdf_try,
    parse_markdown, parse_markdown_try, parse_txt, parse_txt_try,
    read_text, write_text, set_file, try_except, reraise, raise, lift,
    library_open, read_bytes, assign_content, attr, print, bind, detected_ext,
    parser_start, __init__, set_content in *;
  cbn [self outside fs stdout input_path output_path options content
       open_w write_w writable] in *.

Section Orchestrator.
Context {rt : Runtime} {sto : Storage}.

Lemma run_convert_eq (ip op : string) (opts : gmap string pyval) (w : world) :
  run_convert ip op opts w =
    match dispatch (lower (snd (splitext ip))) (parser_start ip op opts w) with
    | (Ok _, st) => emit_document st
    | (Raise e, st) => (Raise e, st)
    end.
Proof. reflexivity. Qed.

Lemma emit_document_eq (st : state) :
  emit_document (sto := writable) st =
    (Ok tt,
     mkState (self st)
       (mkWorld
          (<[output_path (self st) := utf8_encode (full_document (self st))]>
             (fs (outside st)))
          (stdout (outside st)
           ++ ["Conversion successful! Output saved to: "
               +:+ output_path (self st)]))).
Proof. reflexivity. Qed.

(** A parser reads files and writes none; it sets [content] only. *)
Lemma parser_frame (ext prefix : string) (block : M unit) (st st' : state)
    (r : result unit) :
  In (ext, prefix, block) parser_table ->
  block st = (r, st') ->
  fs (outside st') = fs (outside st)
  /\ input_path (self st') = input_path (self st)
  /\ output_path (self st') = output_path (self st)
  /\ options (self st') = options (self st).
Proof.
  unfold parser_table. cbn [In].
  intros Hin Hrun.
  destruct Hin as [Hin|[Hin|[Hin|[Hin|[]]]]]; injection Hin as <- <- <-;
    run_methods; repeat case_match; simplify_eq; auto.
Qed.

(** [dispatch] runs the parser of the extension and wraps what its
    [try] block raises, or raises [ValueError]. *)
Lemma dispatch_cases (ext : string) :
  (~ In ext supported
   /\ forall st,
        dispatch ext st =
          (Raise (ValueError ("Unsupported file type: " +:+ ext)), st))
  \/ (exists prefix block,
        In (ext, prefix, block) parser_table
        /\ forall st,
             dispatch ext st =
               match block st with
               | (Ok a, st') => (Ok a, st')
               | (Raise cause, st') =>
                   (Raise (RuntimeError (prefix +:+ exn_str cause)), st')
               end).
Proof.
  unfold dispatch, supported, parser_table.
  destruct (String.eqb_spec ext ".docx") as [->|H1].
  { right. eexists _, _. split; [left; reflexivity|reflexivity]. }
  destruct (String.eqb_spec ext ".pdf") as [->|H2].
  { right. eexists _, _. split; [right; left; reflexivity|reflexivity]. }
  destruct (String.eqb_spec ext ".md") as [->|H3].
  { right. eexists _, _. split; [do 2 right; left; reflexivity|reflexivity]. }
  destruct (String.eqb_spec ext ".txt") as [->|H4].
  { right. eexists _, _. split; [do 3 right; left; reflexivity|reflexivity]. }
  left. split; [|reflexivity]. cbn [In]. intuition congruence.
Qed.

Lemma dispatch_eq (ext : string) (st : state) :
  dispatch ext st =
    match find_parser ext with
    | None => (Raise (ValueError ("Unsupported file type: " +:+ ext)), st)
    | Some (_, prefix, block) =>
        match block st with
        | (Ok a, st') => (Ok a, st')
        | (Raise cause, st') =>
            (Raise (RuntimeError (prefix +:+ exn_str cause)), st')
        end
    end.
Proof.
  unfold dispatch, find_parser, parser_table. cbn [List.find fst].
  repeat match goal with
         | |- context [String.eqb ext ?k] =>
             destruct (String.eqb ext k); [reflexivity|]
         end.
  reflexivity.
Qed.

(** The end of [convert], by what the storage does. *)
Lemma emit_document_cases (st : state) :
  let op := output_path (self st) in
  let doc := full_document (self st) in
  emit_document st =
    match open_w op with
    | Some e => (Raise e, st)
    | None =>
        match write_w op doc with
        | Some (e, partial) => (Raise e, set_file op partial st)
        | None =>
            (Ok tt,
             mkState (self st)
               (mkWorld (<[op := utf8_encode doc]> (fs (outside st)))
                  (stdout (outside st)
                   ++ ["Conversion successful! Output saved to: " +:+ op])))
        end
    end.
Proof.
  cbv zeta. unfold emit_document, write_text, attr, print, bind.
  destruct (open_w (output_path (self st))); [reflexivity|].
  destruct (write_w (output_path (self st)) (full_document (self st)))
    as [[e partial]|]; reflexivity.
Qed.

(** C7. A run of [convert] is the dispatch, which runs the parser of
    the extension, followed by the one write of the assembled document.
    The conversion fails in the dispatch exactly when the extension is
    none of the four, with the [ValueError] that names the extension,
    or when the [try] block of the chosen parser raises, with a
    [RuntimeError] whose message is the prefix of the parser followed
    by the message of the exception raised; the files are then as they
    were, so the output file is not written at all.  The output path is
    opened only when the dispatch has returned, the parser not having
    touched the files, and what is written is the document assembled
    from the parsed content.  The write itself is in no [try] block:
    what opening the path raises reaches the caller as it is with the
    files as they were, and what the write raises reaches the caller as
    it is with the output file holding what the storage left of it. *)
Theorem convert_failure_writes_nothing (ip op : string)
    (opts : gmap string pyval) (w : world) :
  let ext := lower (snd (splitext ip)) in
  let start := parser_start ip op opts w in
  run_convert ip op opts w =
    match find_parser ext with
    | None => (Raise (ValueError ("Unsupported file type: " +:+ ext)), start)
    | Some (_, prefix, block) =>
        match block start with
        | (Ok _, st) => emit_document st
        | (Raise cause, st) =>
            (Raise (RuntimeError (prefix +:+ exn_str cause)), st)
        end
    end
  /\
  let '(r, st') := run_convert ip op opts w in
  match dispatch ext start with
  | (Raise e, st2) =>
      r = Raise e /\ st' = st2
      /\ fs (outside st') = fs w
      /\ ((~ In ext supported
           /\ e = ValueError ("Unsupported file type: " +:+ ext))
          \/ (exists prefix block cause st3,
                In (ext, prefix, block) parser_table
                /\ block start = (Raise cause, st3)
                /\ e = RuntimeError (prefix +:+ exn_str cause)))
  | (Ok _, st2) =>
      let doc := full_document (self st2) in
      fs (outside st2) = fs w
      /\ self st' = self st2
      /\ match r with
         | Ok _ =>
             open_w op = None /\ write_w op doc = None
             /\ fs (outside st') = <[op := utf8_encode doc]> (fs w)
         | Raise e =>
             (open_w op = Some e /\ fs (outside st') = fs w)
             \/ (open_w op = None
                 /\ exists partial,
                      write_w op doc = Some (e, partial)
                      /\ fs (outside st') = <[op := partial]> (fs w))
         end
  end.
Proof.
  intros ext start. split.
  { rewrite run_convert_eq, dispatch_eq. fold ext. fold start.
    destruct (find_parser ext) as [[[? prefix] block]|]; [|reflexivity].
    destruct (block start) as [[[]|cause] st]; reflexivity. }
  rewrite run_convert_eq. fold ext. fold start.
  destruct (dispatch_cases ext) as [[Hext ->]|(prefix & block & Hin & ->)].
  - cbv beta iota zeta.
    split; [reflexivity|]. split; [reflexivity|]. split; [reflexivity|].
    left. split; [exact Hext|reflexivity].
  - destruct (block start) as [[[]|cause] st2] eqn:Hblock;
      destruct (parser_frame _ _ _ _ _ _ Hin Hblock) as (Hfs & _ & Hop & _).
    + rewrite emit_document_cases. cbv zeta.
      change (output_path (self start)) with op in Hop. rewrite Hop.
      destruct (open_w op) as [e|] eqn:Hopen;
        [|destruct (write_w op (full_document (self st2))) as [[e partial]|]
            eqn:Hwrite];
        cbv beta iota zeta.
      * split; [exact Hfs|]. split; [reflexivity|].
        left. split; [reflexivity|exact Hfs].
      * split; [exact Hfs|]. split; [reflexivity|]. right.
        split; [reflexivity|]. exists partial. split; [reflexivity|].
        unfold set_file. cbn [outside fs]. rewrite Hfs. reflexivity.
      * split; [exact Hfs|]. split; [reflexivity|].
        split; [reflexivity|]. split; [reflexivity|].
        cbn [outside fs]. rewrite Hfs. reflexivity.
    + cbv beta iota zeta.
      split; [reflexivity|]. split; [reflexivity|]. split; [exact Hfs|].
      right. exists prefix, block, cause, st2. auto.
Qed.

End Orchestrator.

(** An input of an unsupported type: the [ValueError], and the one file
    of the world as it was. *)
Lemma convert_failure_writes_nothing_witness :
  let run :=
    run_convert (rt := text_only) "notes.rtf" "notes.tex" ∅
      (one_file "notes.rtf" "{\rtf1 text}") in
  run = (Raise (ValueError "Unsupported file type: .rtf"),
         parser_start "notes.rtf" "notes.tex" ∅
           (one_file "notes.rtf" "{\rtf1 text}"))
  /\ file_after run "notes.tex" = None.
Proof.
  cbv zeta.
  rewrite (proj1 (convert_failure_writes_nothing (rt := text_only)
                    "notes.rtf" "notes.tex" ∅
                    (one_file "notes.rtf" "{\rtf1 text}"))).
  split; vm_compute; reflexivity.
Defined.

(** Failures of the write itself, after a parse that succeeded: a text
    that cannot be encoded leaves the output file empty, and a path
    that cannot be opened leaves no output file; the exception is not
    wrapped in either case. *)
Lemma write_failure_examples :
  let w := one_file "notes.txt" "text" in
  (let run :=
     run_convert (rt := text_only) (sto := unencodable)
       "notes.txt" "notes.tex" ∅ w in
   fst run = Raise (OtherError "'utf-8' codec can't encode character")
   /\ file_after run "notes.tex" = Some "")
  /\ (let run :=
        run_convert (rt := text_only) (sto := no_directory)
          "notes.txt" "out/notes.tex" ∅ w in
      fst run
        = Raise (OtherError
                   "[Errno 2] No such file or directory: 'out/notes.tex'")
      /\ file_after run "out/notes.tex" = None).
Proof. vm_compute. repeat split; reflexivity. Qed.

(** ** PDF *)

Section Pdf.
Context {rt : Runtime}.

Lemma page_texts_none (pages : list Page) (acc : list string) :
  Forall (fun page => extract_text page = Ok None
                      \/ extract_text page = Ok (Some "")) pages ->
  page_texts pages acc = Ok acc.
Proof.
  induction 1 as [|page pages [H|H] _ IH]; [reflexivity| |];
    cbn [page_texts]; rewrite H; exact IH.
Qed.

(** C5. For a PDF none of whose pages yields text, [convert] returns
    without raising: the content is the warning, which is one comment
    line, and the output file is written with the preamble, the
    warning and the postamble. *)
Theorem pdf_without_text_gives_warning (ip op : string)
    (opts : gmap string pyval) (w : world) (pages : list Page) :
  lower (snd (splitext ip)) = ".pdf" ->
  pdfplumber_open (fs w !! ip) = Ok pages ->
  Forall (fun page => extract_text page = Ok None
                      \/ extract_text page = Ok (Some "")) pages ->
  run_convert ip op opts w =
    (Ok tt,
     converted ip op opts utf8_encode w pdf_warning
       ["Warning: No text extracted. PDF might be scanned/image-only."])
  /\ pdf_warning = "% [WARNING: No text extracted from PDF]"
  /\ Str.mem LF pdf_warning = false.
Proof.
  intros Hext Hopen Hpages. split; [|split; reflexivity].
  rewrite run_convert_eq. unfold converted. rewrite Hext.
  change (dispatch ".pdf") with parse_pdf.
  run_methods. rewrite Hext, Hopen, (page_texts_none _ _ Hpages).
  cbn [self outside fs stdout input_path output_path options content].
  unfold full_document. cbn [content].
  rewrite <- !List.app_assoc. reflexivity.
Qed.

End Pdf.

Lemma pdf_without_text_gives_warning_witness :
  run_convert (rt := scanned_pdf) "scan.PDF" "scan.tex" ∅
    (one_file "scan.PDF" "%PDF-1.4")
  = (Ok tt,
     converted "scan.PDF" "scan.tex" ∅ (fun s => s)
       (one_file "scan.PDF" "%PDF-1.4") pdf_warning
       ["Warning: No text extracted. PDF might be scanned/image-only."])
  /\ pdf_warning = "% [WARNING: No text extracted from PDF]"
  /\ Str.mem LF pdf_warning = false.
Proof.
  apply (pdf_without_text_gives_warning (rt := scanned_pdf)
           "scan.PDF" "scan.tex" ∅ (one_file "scan.PDF" "%PDF-1.4")
           [mkPage (Ok None); mkPage (Ok (Some ""))]).
  - vm_compute. reflexivity.
  - reflexivity.
  - constructor; [left; reflexivity|].
    constructor; [right; reflexivity|]. constructor.
Defined.

Lemma replace_char_removes (old : ascii) (new s : string) :
  Str.mem old new = false -> Str.mem old (Str.replace_char old new s) = false.
Proof.
  intros H. induction s as [|c s IH]; [reflexivity|].
  cbn [Str.replace_char]. destruct (Ascii.eqb c old) eqn:E.
  - rewrite mem_app, H, IH. reflexivity.
  - cbn [Str.mem]. rewrite Ascii.eqb_sym, E. exact IH.
Qed.

(** The pages that have text are escaped one by one, in page order. *)
Lemma page_texts_escaped (texts : list string) (acc : list string) :
  Forall (fun t => t <> "") texts ->
  page_texts (map (fun t => mkPage (Ok (Some t))) texts) acc
    = Ok (acc ++ map _escape_latex texts).
Proof.
  intros H. revert acc. induction H as [|t texts Ht _ IH]; intros acc.
  - cbn. rewrite List.app_nil_r. reflexivity.
  - cbn [map page_texts extract_text]. destruct t as [|c t]; [contradiction|].
    rewrite IH, <- List.app_assoc. reflexivity.
Qed.

(** C6, on the code.  The reflow replaces every line feed of the joined
    text, those of the blank-line separators between the pages too: the
    content never has a line feed, and two pages with the texts [a] and
    [b] give the content [a  b], in which no blank line separates
    them. *)
Theorem pdf_reflow_drops_page_breaks :
  (forall text_content : list string,
     Str.mem LF (Str.replace_char LF " " (String.concat nlnl text_content))
       = false)
  /\ content_after
       (run_convert (rt := two_page_pdf) "two.pdf" "two.tex" ∅
          (one_file "two.pdf" "%PDF-1.4"))
     = "a  b".
Proof.
  split.
  - intros text_content. apply replace_char_removes. reflexivity.
  - vm_compute. reflexivity.
Qed.

(** ** Markdown prose *)

Lemma md_code_blocks_copy (md : string) :
  Str.mem "`" md = false -> md_code_blocks md = md.
Proof.
  apply (re_sub_copy pat_code_block _ (delimited_no_anchor true "```" "```")
           "`" (delimited_first true "`" "``" "```")).
Qed.

(** C2, on the code.  [parse_markdown] never calls the escaper: a
    Markdown text without markup is its own body, whatever special
    characters it has, so those are escaped zero times. *)
Theorem markdown_prose_not_escaped (md : string) :
  markup_free md = true -> markdown_body md = md.
Proof.
  intros H. unfold markdown_body. rewrite md_code_blocks_copy.
  - apply markup_free_copy, H.
  - unfold markup_free in H. rewrite !andb_true_iff, negb_true_iff in H.
    tauto.
Qed.

(** The sibling parsers do escape, once: the plain-text parser escapes
    the text of the file, and the DOCX parser escapes the text of each
    run before wrapping it. *)
Lemma parse_txt_escapes {rt : Runtime} (ip op : string)
    (opts : gmap string pyval) (w : world) (bytes text : string) :
  lower (snd (splitext ip)) = ".txt" ->
  fs w !! ip = Some bytes ->
  utf8_decode bytes = Ok text ->
  content_after (run_convert ip op opts w) = _escape_latex text.
Proof.
  intros Hext Hfile Hdec. unfold content_after.
  rewrite run_convert_eq, Hext.
  change (dispatch ".txt") with parse_txt.
  run_methods. rewrite Hfile, Hdec. reflexivity.
Qed.

Lemma docx_runs_escaped (runs : list Run) (text : string) :
  fold_left (fun text run => text +:+ run_escaped_text run) runs text
    = text +:+ String.concat "" (map run_escaped_text runs).
Proof.
  revert text. induction runs as [|run runs IH]; intros text.
  - cbn. rewrite app_nil_r. reflexivity.
  - cbn [fold_left map]. rewrite IH, app_assoc. f_equal.
    destruct runs; [cbn; rewrite app_nil_r; reflexivity|reflexivity].
Qed.

(** The same text through the Markdown parser and through the
    plain-text parser, which escapes it. *)
Lemma markdown_prose_not_escaped_witness :
  markdown_body "100% done & $5 cost" = "100% done & $5 cost"
  /\ content_after
       (run_convert (rt := text_only) "a.md" "a.tex" ∅
          (one_file "a.md" "100% done & $5 cost"))
     = "100% done & $5 cost"
  /\ content_after
       (run_convert (rt := text_only) "a.txt" "a.tex" ∅
          (one_file "a.txt" "100% done & $5 cost"))
     = "100\% done \& \$5 cost".
Proof.
  split.
  - apply (markdown_prose_not_escaped "100% done & $5 cost").
    vm_compute. reflexivity.
  - split; vm_compute; reflexivity.
Defined.

(** ** The preamble *)


Lemma occurs_app_r (p a b : string) : Str.occurs p b -> Str.occurs p (a +:+ b).
Proof.
  intros (x & y & ->). exists (a +:+ x), y. rewrite !app_assoc. reflexivity.
Qed.

Lemma concat_occurs (sep x : string) (l : list string) :
  In x l -> Str.occurs x (String.concat sep l).
Proof.
  induction l as [|y l IH]; [intros []|].
  intros [->|H].
  - destruct l as [|z l]; cbn [String.concat].
    + exists "", "". rewrite app_nil_r. reflexivity.
    + exists "", (sep +:+ String.concat sep (z :: l)). reflexivity.
  - destruct l as [|z l]; [destruct H|].
    change (String.concat sep (y :: z :: l))
      with (y +:+ sep +:+ String.concat sep (z :: l)).
    apply occurs_app_r, occurs_app_r, IH, H.
Qed.

Lemma preamble_has_line (self : LatexConverter) (x : string) :
  In x ["\title{" +:+ basename (input_path self) +:+ "}";
        "\author{Auto-Generated}"; "\date{\today}"; "\begin{document}";
        "\maketitle"] ->
  Str.occurs x (_get_preamble self).
Proof.
  intros H. unfold _get_preamble. cbv zeta. apply concat_occurs.
  rewrite !List.in_app_iff. cbn [In] in *. tauto.
Qed.

(** ** Determinism *)

Section Determinism.
Context {rt : Runtime}.



End Determinism.


(** C9. The preamble has the base name of the input path inside
    [\title{...}] as it is, without escaping: a file named
    [my_file.txt] gives a document with [\title{my_file.txt}], the
    underscore unescaped, where the escaper would give [my\_file.txt]. *)
Theorem title_not_escaped :
  (forall self : LatexConverter,
     Str.occurs ("\title{" +:+ basename (input_path self) +:+ "}")
       (_get_preamble self))
  /\ (let run :=
        run_convert (rt := text_only) "notes/my_file.txt" "out.tex" ∅
          (one_file "notes/my_file.txt" "text") in
      let doc :=
        full_document (mkConverter "notes/my_file.txt" "out.tex" ∅ "text") in
      fst run = Ok tt
      /\ file_after run "out.tex" = Some doc
      /\ Str.occurs "\title{my_file.txt}" doc
      /\ ~ Str.occurs "\title{my\_file.txt}" doc)
  /\ _escape_latex "my_file.txt" = "my\_file.txt".
Proof.
  split; [|split; [|reflexivity]].
  - intros self. apply preamble_has_line. left. reflexivity.
  - cbv zeta. split; [vm_compute; reflexivity|].
    split; [vm_compute; reflexivity|]. split.
    + apply contains_occurs. vm_compute. reflexivity.
    + intros H%contains_occurs. vm_compute in H. discriminate.
Qed.

(** ** Dispatch on the extension *)

Lemma case_variant_lower (ref s : string) :
  forallb (fun r => Ascii.eqb (lower_char r) r
                    && Ascii.eqb (lower_char (capital r)) r)
    (list_ascii_of_string ref) = true ->
  case_variant ref s = true ->
  lower s = ref.
Proof.
  revert s. induction ref as [|r ref IH]; intros [|c s] Hlow Hcv;
    try discriminate; [reflexivity|].
  cbn [list_ascii_of_string forallb case_variant lower] in *.
  apply andb_true_iff in Hlow as [Hr Hlow].
  apply andb_true_iff in Hr as [Hr1%Ascii.eqb_eq Hr2%Ascii.eqb_eq].
  apply andb_true_iff in Hcv as [Hc Hcv].
  rewrite (IH _ Hlow Hcv). f_equal.
  apply orb_true_iff in Hc as [->%Ascii.eqb_eq| ->%Ascii.eqb_eq]; assumption.
Qed.

Section Dispatch.
Context {rt : Runtime}.

(** C10. When the extension of the input path differs from one of
    [.docx], [.pdf], [.md], [.txt] only in letter case, [convert] runs
    the parser of that extension, then assembles and writes the
    document; it does not raise the [ValueError] of an unsupported
    type. *)
Theorem extension_case_insensitive (ip op : string)
    (opts : gmap string pyval) (w : world) (ref prefix : string)
    (block : M unit) :
  In (ref, prefix, block) parser_table ->
  case_variant ref (snd (splitext ip)) = true ->
  run_convert ip op opts w =
    match try_except block (reraise prefix) (parser_start ip op opts w) with
    | (Ok _, st) => emit_document st
    | (Raise e, st) => (Raise e, st)
    end
  /\ forall msg, fst (run_convert ip op opts w) <> Raise (ValueError msg).
Proof.
  intros Hin Hcv.
  assert (Hext : lower (snd (splitext ip)) = ref).
  { apply case_variant_lower; [|exact Hcv].
    destruct Hin as [Hin|[Hin|[Hin|[Hin|[]]]]]; injection Hin as <- <- <-;
      reflexivity. }
  assert (Hrun : run_convert ip op opts w =
                 match try_except block (reraise prefix)
                         (parser_start ip op opts w) with
                 | (Ok _, st) => emit_document st
                 | (Raise e, st) => (Raise e, st)
                 end).
  { rewrite run_convert_eq, Hext.
    destruct Hin as [Hin|[Hin|[Hin|[Hin|[]]]]]; injection Hin as <- <- <-;
      reflexivity. }
  split; [exact Hrun|].
  intros msg. rewrite Hrun. unfold try_except, reraise, raise.
  destruct (block (parser_start ip op opts w)) as [[[]|cause] st].
  - rewrite emit_document_eq. discriminate.
  - discriminate.
Qed.

End Dispatch.

Lemma extension_case_insensitive_witness :
  case_variant ".docx" (snd (splitext "Report.DOCX")) = true
  /\ run_convert (rt := one_paragraph_docx) "Report.DOCX" "Report.tex" ∅
       (one_file "Report.DOCX" "PK")
     = (Ok tt,
        converted "Report.DOCX" "Report.tex" ∅ (fun s => s)
          (one_file "Report.DOCX" "PK")
          ("50\% \textbf{off}" +:+ nl) []).
Proof.
  split; [vm_compute; reflexivity|].
  destruct (extension_case_insensitive (rt := one_paragraph_docx)
              "Report.DOCX" "Report.tex" ∅ (one_file "Report.DOCX" "PK")
              ".docx" "Error parsing DOCX: "
              (parse_docx_try (rt := one_paragraph_docx))) as [Hrun _].
  - left. reflexivity.
  - vm_compute. reflexivity.
  - rewrite Hrun. vm_compute. reflexivity.
Defined.

(** * Further properties of the code *)

(** ** The escaper *)

Lemma chars_get_sequence (c : ascii) (r : string) :
  chars_get chars c = Some r ->
  exists d r', r = String "\" (String d r')
               /\ Str.mem d after_backslash = true
               /\ Str.mem "\" (String d r') = false
               /\ Str.mem LF r = false.
Proof.
  intros H%chars_get_In. unfold chars in H. cbn [In] in H.
  repeat (destruct H as [[= <- <-]|H];
          [eexists _, _; repeat split; reflexivity|]).
  destruct H.
Qed.

Lemma chars_get_None (c : ascii) :
  chars_get chars c = None -> latex_special c = false.
Proof. intros H. rewrite chars_get_special, H. reflexivity. Qed.

Lemma chars_get_Some (c : ascii) (r : string) :
  chars_get chars c = Some r -> latex_special c = true.
Proof. intros H. rewrite chars_get_special, H. reflexivity. Qed.

Lemma pattern_sub_length (t : string) :
  String.length t <= String.length (pattern_sub t)
  /\ (has_special t = true -> String.length t < String.length (pattern_sub t)).
Proof.
  induction t as [|c t [IH1 IH2]]; [split; [reflexivity|discriminate]|].
  rewrite pattern_sub_cons. cbn [has_special String.length].
  destruct (chars_get chars c) as [r|] eqn:E.
  - destruct (chars_get_sequence _ _ E) as (d & r' & -> & _).
    rewrite !app_cons. cbn [String.length]. rewrite length_app. split; lia.
  - rewrite (chars_get_None _ E). cbn [String.length orb]. split; [lia|].
    intros H. specialize (IH2 H). lia.
Qed.

Lemma pattern_sub_plain (t : string) :
  has_special t = false -> pattern_sub t = t.
Proof.
  induction t as [|c t IH]; [reflexivity|].
  cbn [has_special]. intros [Hc Ht]%orb_false_iff.
  rewrite pattern_sub_cons, (IH Ht).
  destruct (chars_get chars c) as [r|] eqn:E; [|reflexivity].
  rewrite (chars_get_Some _ _ E) in Hc. discriminate.
Qed.

Lemma pattern_sub_special (t : string) :
  has_special t = true -> has_special (pattern_sub t) = true.
Proof.
  induction t as [|c t IH]; [discriminate|].
  rewrite pattern_sub_cons. cbn [has_special].
  destruct (chars_get chars c) as [r|] eqn:E.
  - intros _. destruct (chars_get_sequence _ _ E) as (d & r' & -> & _).
    reflexivity.
  - rewrite (chars_get_None _ E). cbn [orb has_special]. intros H.
    rewrite (IH H). apply orb_true_r.
Qed.

(** X1. The escaper leaves a text as it is exactly when the text has no
    LaTeX-special character; otherwise the result is longer than the
    text. *)
Theorem escape_latex_fixed_iff (t : string) :
  (_escape_latex t = t <-> has_special t = false)
  /\ String.length t <= String.length (_escape_latex t).
Proof.
  rewrite escape_latex_eq. split; [split|].
  - intros H. destruct (has_special t) eqn:E; [|reflexivity].
    pose proof (proj2 (pattern_sub_length t) E) as Hlt.
    rewrite H in Hlt. lia.
  - apply pattern_sub_plain.
  - apply pattern_sub_length.
Qed.

(** X2. Escaping twice is not escaping once: when the text has a
    special character, the escaper changes its own result again, the
    inserted backslashes being special themselves. *)
Theorem escape_latex_twice_differs (t : string) :
  has_special t = true ->
  _escape_latex (_escape_latex t) <> _escape_latex t.
Proof.
  intros H. rewrite !escape_latex_eq. intros Heq.
  pose proof (proj2 (pattern_sub_length (pattern_sub t))
                (pattern_sub_special t H)) as Hlt.
  rewrite Heq in Hlt. lia.
Qed.

Lemma escape_latex_twice_differs_witness :
  has_special "50% off" = true
  /\ _escape_latex (_escape_latex "50% off") <> _escape_latex "50% off".
Proof.
  split; [reflexivity|].
  apply (escape_latex_twice_differs "50% off"). reflexivity.
Defined.

Lemma pattern_sub_lines (t : string) :
  Str.split LF (pattern_sub t) = map pattern_sub (Str.split LF t).
Proof.
  induction t as [|c t IH]; [reflexivity|].
  rewrite pattern_sub_cons, split_cons.
  pose proof (split_nonempty t) as Hne.
  destruct (chars_get chars c) as [r|] eqn:E.
  - destruct (chars_get_sequence _ _ E) as (d & r' & Hr & _ & _ & Hlf).
    rewrite split_line_prefix, IH by exact Hlf.
    assert (Hc : Ascii.eqb c LF = false).
    { destruct (Ascii.eqb_spec c LF) as [->|]; [discriminate E|reflexivity]. }
    rewrite Hc. destruct (Str.split LF t) as [|l ls]; [contradiction|].
    cbn [map hd tl]. rewrite pattern_sub_cons, E. reflexivity.
  - rewrite split_cons, IH.
    destruct (Ascii.eqb c LF); [reflexivity|].
    destruct (Str.split LF t) as [|l ls]; [contradiction|].
    cbn [map hd tl]. rewrite pattern_sub_cons, E. reflexivity.
Qed.

Lemma map_escape_latex (ls : list string) :
  map _escape_latex ls = map pattern_sub ls.
Proof. apply map_ext. intros t. apply escape_latex_eq. Qed.

(** X3. The escaper keeps the lines of a text: the lines of the
    escaped text are the escaped lines of the text, in order, so no
    line break is added, lost or moved. *)
Theorem escape_latex_lines (t : string) :
  Str.split LF (_escape_latex t) = map _escape_latex (Str.split LF t).
Proof. rewrite escape_latex_eq, map_escape_latex. apply pattern_sub_lines. Qed.

Lemma backslashes_ok_sub (t : string) : backslashes_ok (pattern_sub t) = true.
Proof.
  induction t as [|c t IH]; [reflexivity|].
  rewrite pattern_sub_cons. destruct (chars_get chars c) as [r|] eqn:E.
  - apply chars_get_In in E. unfold chars in E. cbn [In] in E.
    repeat (destruct E as [[= <- <-]|E]; [exact IH|]).
    destruct E.
  - cbn [backslashes_ok].
    assert (Hc : Ascii.eqb c "\" = false).
    { pose proof (chars_get_None _ E) as Hs. unfold latex_special in Hs.
      cbn [Str.mem] in Hs.
      repeat match type of Hs with
             | context [Ascii.eqb c ?k] =>
                 destruct (Ascii.eqb c k) eqn:?; [discriminate|]
             end.
      reflexivity. }
    rewrite Hc. exact IH.
Qed.

Lemma backslashes_ok_at (a b : string) (c : ascii) :
  backslashes_ok (a +:+ String "\" (String c b)) = true ->
  Str.mem c after_backslash = true.
Proof.
  induction a as [|x a IH].
  - rewrite app_nil_l. cbn [backslashes_ok].
    change (Ascii.eqb "\" "\") with true. cbv iota.
    intros [H _]%andb_true_iff. exact H.
  - rewrite app_cons. cbn [backslashes_ok].
    intros [_ H]%andb_true_iff. apply IH, H.
Qed.

Lemma commands_inserted_sub (t : string) :
  commands_inserted (pattern_sub t) = true.
Proof.
  induction t as [|c t IH]; [reflexivity|].
  rewrite pattern_sub_cons. destruct (chars_get chars c) as [r|] eqn:E.
  - apply chars_get_In in E. unfold chars in E. cbn [In] in E.
    repeat (destruct E as [[= <- <-]|E]; [exact IH|]).
    destruct E.
  - cbn [commands_inserted].
    destruct (Ascii.eqb_spec c "\") as [->|_]; [discriminate E|].
    exact IH.
Qed.

Lemma commands_inserted_at (a b : string) :
  commands_inserted (a +:+ String "\" b) = true ->
  starts_inserted (String "\" b) = true.
Proof.
  induction a as [|x a IH].
  - rewrite app_nil_l. cbn [commands_inserted].
    change (Ascii.eqb "\" "\") with true. cbv iota.
    intros [H _]%andb_true_iff. exact H.
  - rewrite app_cons. cbn [commands_inserted].
    intros [_ H]%andb_true_iff. apply IH, H.
Qed.

(** X4. The only commands in an escaped text are the inserted ones:
    wherever a backslash occurs in the result of the escaper, one of
    the ten inserted sequences begins there, whole: the backslash with
    the escaped character, [\^{}], or [\textasciitilde{}] or
    [\textbackslash{}] with the empty group that ends the name.  So no
    text can smuggle a command such as [\end], [\input] or [\today]
    through the escaper. *)
Theorem escape_latex_no_foreign_command (t a b : string) :
  _escape_latex t = a +:+ String "\" b ->
  exists r rest, In r inserted /\ String "\" b = r +:+ rest.
Proof.
  rewrite escape_latex_eq. intros H.
  pose proof (commands_inserted_sub t) as Hok. rewrite H in Hok.
  apply commands_inserted_at in Hok. unfold starts_inserted in Hok.
  apply existsb_exists in Hok as (r & Hin & Hr).
  unfold Str.startswith in Hr.
  destruct (Str.strip_prefix r (String "\" b)) as [rest|] eqn:E;
    [|discriminate].
  exists r, rest. split; [exact Hin|]. apply strip_prefix_Some, E.
Qed.

Lemma escape_latex_no_foreign_command_witness :
  _escape_latex "a\today" = "a" +:+ String "\" "textbackslash{}today"
  /\ exists r rest,
       In r inserted /\ String "\" "textbackslash{}today" = r +:+ rest.
Proof.
  split; [reflexivity|].
  apply (escape_latex_no_foreign_command "a\today" "a" "textbackslash{}today").
  reflexivity.
Defined.

(** ** The PDF parser *)

Lemma replace_char_app (old : ascii) (new a b : string) :
  Str.replace_char old new (a +:+ b)
    = Str.replace_char old new a +:+ Str.replace_char old new b.
Proof.
  induction a as [|c a IH]; [reflexivity|].
  rewrite app_cons. cbn [Str.replace_char]. rewrite IH.
  destruct (Ascii.eqb c old); [rewrite app_assoc|]; reflexivity.
Qed.

Lemma replace_char_absent (old : ascii) (new s : string) :
  Str.mem old s = false -> Str.replace_char old new s = s.
Proof.
  induction s as [|c s IH]; [reflexivity|].
  cbn [Str.mem Str.replace_char]. rewrite Ascii.eqb_sym.
  destruct (Ascii.eqb c old); [discriminate|].
  intros H. rewrite (IH H). reflexivity.
Qed.

(** Reflow and escaping commute: a line feed and a space are no special
    characters, and no sequence of [chars] has a line feed. *)
Lemma pattern_sub_reflow (t : string) :
  Str.replace_char LF " " (pattern_sub t)
    = pattern_sub (Str.replace_char LF " " t).
Proof.
  induction t as [|c t IH]; [reflexivity|].
  rewrite pattern_sub_cons. cbn [Str.replace_char].
  destruct (chars_get chars c) as [r|] eqn:E.
  - destruct (chars_get_sequence _ _ E) as (_ & _ & _ & _ & _ & Hlf).
    assert (Hc : Ascii.eqb c LF = false).
    { destruct (Ascii.eqb_spec c LF) as [->|]; [discriminate E|reflexivity]. }
    rewrite Hc, replace_char_app, (replace_char_absent _ _ _ Hlf), IH.
    rewrite pattern_sub_cons, E. reflexivity.
  - cbn [Str.replace_char]. destruct (Ascii.eqb c LF).
    + rewrite IH. reflexivity.
    + rewrite IH, pattern_sub_cons, E. reflexivity.
Qed.

Lemma pattern_sub_concat (sep : string) (ts : list string) :
  has_special sep = false ->
  pattern_sub (String.concat sep ts) = String.concat sep (map pattern_sub ts).
Proof.
  intros Hsep. induction ts as [|t ts IH]; [reflexivity|].
  destruct ts as [|t' ts]; [reflexivity|].
  change (String.concat sep (t :: t' :: ts))
    with (t +:+ sep +:+ String.concat sep (t' :: ts)).
  rewrite !pattern_sub_app, IH, (pattern_sub_plain _ Hsep). reflexivity.
Qed.

Lemma page_texts_returns (pages : list Page) (acc : list string) :
  Forall page_returns pages ->
  page_texts pages acc = Ok (acc ++ map _escape_latex (page_strings pages)).
Proof.
  intros H. revert acc. induction H as [|page pages [text Ht] _ IH]; intros acc.
  - cbn. rewrite List.app_nil_r. reflexivity.
  - cbn [page_texts page_strings]. rewrite Ht.
    destruct text as [[|c t]|]; [apply IH| |apply IH].
    rewrite IH. cbn [map]. rewrite <- List.app_assoc. reflexivity.
Qed.

Lemma page_texts_raises (good rest : list Page) (bad : Page) (e : exn)
    (acc : list string) :
  Forall page_returns good ->
  extract_text bad = Raise e ->
  page_texts (good ++ bad :: rest) acc = Raise e.
Proof.
  intros H Hbad. revert acc.
  induction H as [|page pages [text Ht] _ IH]; intros acc.
  - cbn [List.app page_texts]. rewrite Hbad. reflexivity.
  - cbn [List.app page_texts]. rewrite Ht.
    destruct text as [[|c t]|]; apply IH.
Qed.

Section PdfContent.
Context {rt : Runtime}.

(** X5. For a PDF all of whose pages can be read, [convert] succeeds
    and the content depends on the texts of the pages that have some,
    in page order: pages without text are skipped; with no text at all
    the content is the warning; otherwise it is the escaped reflowed
    join of the raw texts, escaping each page before the reflow giving
    the same as escaping the joined and reflowed text. *)
Theorem pdf_content_of_pages (ip op : string) (opts : gmap string pyval)
    (w : world) (pages : list Page) :
  lower (snd (splitext ip)) = ".pdf" ->
  pdfplumber_open (fs w !! ip) = Ok pages ->
  Forall page_returns pages ->
  fst (run_convert ip op opts w) = Ok tt
  /\ content_after (run_convert ip op opts w) =
       match page_strings pages with
       | [] => pdf_warning
       | texts =>
           _escape_latex
             (Str.replace_char LF " " (String.concat nlnl texts))
       end.
Proof.
  intros Hext Hopen Hpages. unfold content_after.
  rewrite run_convert_eq, Hext. change (dispatch ".pdf") with parse_pdf.
  run_methods. rewrite Hopen, (page_texts_returns _ _ Hpages).
  cbn [List.app].
  destruct (page_strings pages) as [|t ts]; [split; reflexivity|].
  cbn [map fst snd self content]. split; [reflexivity|].
  rewrite (escape_latex_eq
             (Str.replace_char LF " " (String.concat nlnl (t :: ts)))).
  rewrite <- pattern_sub_reflow, (pattern_sub_concat nlnl) by reflexivity.
  rewrite <- map_escape_latex. reflexivity.
Qed.

(** X6. When [extract_text] raises on a page, the pages before it
    having been read, [convert] fails with the [RuntimeError] that
    wraps that exception: the text of the earlier pages is dropped,
    the content stays empty and no file is written. *)
Theorem pdf_page_error_aborts (ip op : string) (opts : gmap string pyval)
    (w : world) (good rest : list Page) (bad : Page) (e : exn) :
  lower (snd (splitext ip)) = ".pdf" ->
  pdfplumber_open (fs w !! ip) = Ok (good ++ bad :: rest) ->
  Forall page_returns good ->
  extract_text bad = Raise e ->
  run_convert ip op opts w =
    (Raise (RuntimeError ("Error parsing PDF: " +:+ exn_str e)),
     parser_start ip op opts w).
Proof.
  intros Hext Hopen Hgood Hbad.
  rewrite run_convert_eq, Hext. change (dispatch ".pdf") with parse_pdf.
  run_methods.
  rewrite Hext, Hopen, (page_texts_raises _ _ _ _ _ Hgood Hbad).
  reflexivity.
Qed.

End PdfContent.

Lemma pdf_content_of_pages_witness :
  content_after
    (run_convert (rt := blank_page_pdf) "two.pdf" "two.tex" ∅
       (one_file "two.pdf" "%PDF-1.4"))
  = "50\% off  a\_b c".
Proof.
  apply (pdf_content_of_pages (rt := blank_page_pdf) "two.pdf" "two.tex" ∅
           (one_file "two.pdf" "%PDF-1.4")
           [mkPage (Ok (Some "50% off")); mkPage (Ok None);
            mkPage (Ok (Some ("a_b" +:+ nl +:+ "c")))]).
  - vm_compute. reflexivity.
  - reflexivity.
  - repeat constructor; eexists; reflexivity.
Defined.

Lemma pdf_page_error_aborts_witness :
  run_convert (rt := broken_page_pdf) "two.pdf" "two.tex" ∅
    (one_file "two.pdf" "%PDF-1.4")
  = (Raise (RuntimeError "Error parsing PDF: bad stream"),
     parser_start "two.pdf" "two.tex" ∅ (one_file "two.pdf" "%PDF-1.4")).
Proof.
  apply (pdf_page_error_aborts (rt := broken_page_pdf) "two.pdf" "two.tex" ∅
           (one_file "two.pdf" "%PDF-1.4")
           [mkPage (Ok (Some "50% off"))] [mkPage (Ok (Some "c"))]
           (mkPage (Raise (OtherError "bad stream"))) (OtherError "bad stream")).
  - vm_compute. reflexivity.
  - reflexivity.
  - repeat constructor. eexists. reflexivity.
  - reflexivity.
Defined.

(** ** The plain-text parser *)

(** X7. For a text file that can be read and decoded, [convert]
    succeeds without printing a warning, the content is the escaped
    text of the file (empty for an empty file), the output file holds
    the document around it, and the text can be read back from the
    content. *)
Theorem txt_conversion_escapes_text {rt : Runtime} (ip op : string)
    (opts : gmap string pyval) (w : world) (bytes text : string) :
  lower (snd (splitext ip)) = ".txt" ->
  fs w !! ip = Some bytes ->
  utf8_decode bytes = Ok text ->
  run_convert ip op opts w =
    (Ok tt, converted ip op opts utf8_encode w (_escape_latex text) [])
  /\ unescape (content_after (run_convert ip op opts w)) = text.
Proof.
  intros Hext Hfile Hdec.
  assert (Hrun : run_convert ip op opts w =
                 (Ok tt,
                  converted ip op opts utf8_encode w (_escape_latex text) [])).
  { rewrite run_convert_eq. unfold converted. rewrite Hext.
    change (dispatch ".txt") with parse_txt.
    run_methods. rewrite Hext, Hfile, Hdec.
    cbn [self outside fs stdout input_path output_path options content].
    unfold full_document. cbn [content List.app].
    rewrite <- !List.app_assoc. reflexivity. }
  split; [exact Hrun|].
  rewrite Hrun. unfold content_after, converted. cbn [snd self content].
  rewrite escape_latex_eq. apply unescape_pattern_sub.
Qed.

Lemma txt_conversion_escapes_text_witness :
  run_convert (rt := text_only) "notes.txt" "notes.tex" ∅
    (one_file "notes.txt" "100% done & $5 cost")
  = (Ok tt,
     converted "notes.txt" "notes.tex" ∅ (fun s => s)
       (one_file "notes.txt" "100% done & $5 cost")
       "100\% done \& \$5 cost" []).
Proof.
  apply (txt_conversion_escapes_text (rt := text_only) "notes.txt" "notes.tex"
           ∅ (one_file "notes.txt" "100% done & $5 cost")
           "100% done & $5 cost" "100% done & $5 cost").
  - vm_compute. reflexivity.
  - vm_compute. reflexivity.
  - reflexivity.
Defined.

(** ** The preamble and its options *)

Lemma strip_base_package (pkg : string) :
  In pkg base_packages -> strip pkg = pkg.
Proof.
  intros H. unfold base_packages in H. cbn [In] in H.
  repeat (destruct H as [<-|H]; [reflexivity|]). destruct H.
Qed.

(** X8. Every package gets its [\usepackage] line: the eight base
    packages whatever the options are, and each element of the
    comma-separated [packages] option with the white space around it
    stripped (so an empty element, as between two commas, gives
    [\usepackage{}]). *)
Theorem preamble_usepackage (self : LatexConverter) (pkg : string) :
  In pkg (base_packages ++ extra_packages (options self)) ->
  Str.occurs ("\usepackage{" +:+ strip pkg +:+ "}") (_get_preamble self).
Proof.
  intros Hin. unfold _get_preamble. cbv zeta. apply concat_occurs.
  unfold extra_packages in Hin.
  apply (List.in_map (fun pkg => "\usepackage{" +:+ strip pkg +:+ "}")) in Hin.
  destruct (truthy (dict_get (options self) "packages"));
    destruct (truthy (dict_get (options self) "custom_preamble"));
    rewrite ?List.app_nil_r in Hin; rewrite !List.in_app_iff; tauto.
Qed.

Lemma preamble_usepackage_witness :
  Str.occurs "\usepackage{multirow}"
    (_get_preamble
       (__init__ "a.md" "a.tex" {[ "packages" := Some "tikz, multirow " ]})).
Proof.
  apply (preamble_usepackage
           (__init__ "a.md" "a.tex" {[ "packages" := Some "tikz, multirow " ]})
           " multirow ").
  vm_compute. do 9 right. left. reflexivity.
Defined.

(** X9. For the options [packages] and [custom_preamble], a value that
    is [None] or the empty string is the same as no value: the
    preamble is the one of the options without the key. *)
Theorem preamble_ignores_falsy_option (ip op : string)
    (opts : gmap string pyval) (c : string) (k : string) (v : pyval) :
  In k ["packages"; "custom_preamble"] ->
  truthy v = false ->
  _get_preamble (mkConverter ip op (<[k := v]> opts) c)
    = _get_preamble (mkConverter ip op (delete k opts) c).
Proof.
  intros Hk Hv. unfold _get_preamble, dict_get, dict_get_default.
  cbn [options input_path].
  cbn [In] in Hk. destruct Hk as [<-|[<-|[]]];
    rewrite ?lookup_insert_eq, ?lookup_delete_eq;
    rewrite ?lookup_insert_ne, ?lookup_delete_ne by discriminate;
    rewrite Hv; reflexivity.
Qed.

Lemma preamble_ignores_falsy_option_witness :
  _get_preamble
    (mkConverter "a.md" "a.tex" (<["packages" := None]> ∅) "")
  = _get_preamble (mkConverter "a.md" "a.tex" (delete "packages" ∅) "").
Proof.
  apply (preamble_ignores_falsy_option "a.md" "a.tex" ∅ "" "packages" None).
  - left. reflexivity.
  - reflexivity.
Defined.

(** ** The DOCX parser *)

Lemma app_nl_nonempty (s : string) : nonempty (s +:+ nl) = true.
Proof. destruct s; reflexivity. Qed.

Lemma process_docx_paragraph_nonempty (p : Paragraph) :
  nonempty (_process_docx_paragraph p) = nonempty (strip (para_text p)).
Proof.
  unfold _process_docx_paragraph.
  destruct (strip (para_text p)) as [|c s]; [reflexivity|].
  cbv zeta. cbn [nonempty].
  repeat match goal with
         | |- context [if ?b then _ else _] => destruct b; try reflexivity
         end.
  apply app_nl_nonempty.
Qed.

Lemma render_docx_block_nonempty (block : block_item) :
  nonempty (render_docx_block block) = visible_block block.
Proof.
  destruct block as [p|t]; [apply process_docx_paragraph_nonempty|reflexivity].
Qed.

Lemma filter_map_nonempty (blocks : list block_item) :
  List.filter nonempty (map render_docx_block blocks)
    = map render_docx_block (List.filter visible_block blocks).
Proof.
  induction blocks as [|b blocks IH]; [reflexivity|].
  cbn [map List.filter]. rewrite render_docx_block_nonempty.
  destruct (visible_block b); cbn [map]; rewrite IH; reflexivity.
Qed.

(** X10. The body of a DOCX document has its tables and its paragraphs
    with visible text, each rendered, in document order and separated
    by blank lines: a paragraph whose text is empty or white space is
    the only thing left out, whatever its runs and style, and a table
    is never left out. *)
Theorem docx_body_keeps_visible_blocks (blocks : list block_item) :
  docx_body blocks =
    String.concat nlnl
      (map render_docx_block (List.filter visible_block blocks))
  /\ Forall (fun s => s <> "")
       (map render_docx_block (List.filter visible_block blocks)).
Proof.
  split.
  - unfold docx_body. cbv zeta. rewrite <- filter_map_nonempty. reflexivity.
  - apply Stdlib.Lists.List.Forall_forall. intros s Hs.
    apply List.in_map_iff in Hs as (b & <- & Hb).
    apply List.filter_In in Hb as [_ Hb].
    rewrite <- render_docx_block_nonempty in Hb.
    destruct (render_docx_block b); [discriminate|discriminate].
Qed.

Lemma concat_runs_unstyled (runs : list Run) :
  forallb unstyled runs = true ->
  String.concat "" (map run_escaped_text runs)
    = pattern_sub (String.concat "" (map run_text runs)).
Proof.
  induction runs as [|run runs IH]; [reflexivity|].
  cbn [forallb map]. intros [Hrun Hruns]%andb_true_iff.
  specialize (IH Hruns).
  assert (Hone : run_escaped_text run = pattern_sub (run_text run)).
  { unfold unstyled in Hrun. apply andb_true_iff in Hrun as [Hb Hi].
    apply negb_true_iff in Hb, Hi. unfold run_escaped_text.
    rewrite Hb, Hi. apply escape_latex_eq. }
  destruct runs as [|run' runs]; [exact Hone|].
  change (String.concat "" (map run_escaped_text (run' :: runs)))
    with (String.concat "" (run_escaped_text run' :: map run_escaped_text runs))
    in IH.
  cbn [map] in *.
  change (String.concat "" (run_escaped_text run :: run_escaped_text run'
                            :: map run_escaped_text runs))
    with (run_escaped_text run +:+ ""
          +:+ String.concat "" (run_escaped_text run'
                                :: map run_escaped_text runs)).
  change (String.concat "" (run_text run :: run_text run' :: map run_text runs))
    with (run_text run +:+ ""
          +:+ String.concat "" (run_text run' :: map run_text runs)).
  rewrite IH, Hone, !pattern_sub_app. reflexivity.
Qed.

(** X11. How the text of a paragraph is cut into runs does not show in
    the output as long as the runs are neither bold nor italic: the
    paragraph is rendered as if it had the one run with the joined
    text, the escaper being applied run by run. *)
Theorem docx_unstyled_runs_merge (text style : string) (runs : list Run) :
  forallb unstyled runs = true ->
  _process_docx_paragraph (mkParagraph text runs style)
    = _process_docx_paragraph (mkParagraph text [merged_run runs] style).
Proof.
  intros H. unfold _process_docx_paragraph.
  cbn [para_text para_runs para_style_name].
  destruct (strip text); [reflexivity|]. cbv zeta.
  rewrite !docx_runs_escaped, (concat_runs_unstyled _ H).
  cbn [map String.concat]. unfold run_escaped_text, merged_run.
  cbn [run_text run_bold run_italic]. rewrite escape_latex_eq. reflexivity.
Qed.

Lemma docx_unstyled_runs_merge_witness :
  _process_docx_paragraph
    (mkParagraph "50% off"
       [mkRun "50" false false; mkRun "% o" false false; mkRun "ff" false false]
       "Heading 1")
  = _process_docx_paragraph
      (mkParagraph "50% off" [mkRun "50% off" false false] "Heading 1").
Proof.
  apply (docx_unstyled_runs_merge "50% off" "Heading 1"
           [mkRun "50" false false; mkRun "% o" false false;
            mkRun "ff" false false]).
  reflexivity.
Defined.

(** ** Markdown: list lines *)

Lemma lstrip_all_space (indent s : string) :
  all_space indent = true -> lstrip (indent +:+ s) = lstrip s.
Proof.
  induction indent as [|c indent IH]; [reflexivity|].
  cbn [all_space]. intros [Hc H]%andb_true_iff.
  rewrite app_cons. cbn [lstrip]. rewrite Hc. apply IH, H.
Qed.

Lemma lstrip_no_space (s : string) :
  match s with String c _ => isspace c = false | "" => True end ->
  lstrip s = s.
Proof. destruct s as [|c s]; [reflexivity|]. cbn [lstrip]. intros ->. reflexivity. Qed.

(** X12. A list line is optional white space, a dash, at least one
    white-space character and the content, which is what is rendered
    as the item: the indentation is dropped, so the items of a nested
    list become items of the one flat list.  A dash that is directly
    followed by another character, as in [-5] or [---], starts no list
    line. *)
Theorem list_item_shape (indent : string) :
  all_space indent = true ->
  (forall (c : ascii) (gap content : string),
     isspace c = true -> all_space gap = true ->
     match content with String d _ => isspace d = false | "" => True end ->
     list_item (indent +:+ "-" +:+ String c gap +:+ content) = Some content)
  /\ (forall (c : ascii) (s : string),
        isspace c = false ->
        list_item (indent +:+ "-" +:+ String c s) = None).
Proof.
  intros Hindent. split.
  - intros c gap content Hc Hgap Hcontent. unfold list_item.
    rewrite (lstrip_all_space _ _ Hindent).
    change (lstrip ("-" +:+ String c gap +:+ content))
      with (String "-" (String c (gap +:+ content))).
    cbv beta iota. rewrite Hc, (lstrip_all_space _ _ Hgap), (lstrip_no_space _ Hcontent).
    reflexivity.
  - intros c s Hc. unfold list_item.
    rewrite (lstrip_all_space _ _ Hindent).
    change (lstrip ("-" +:+ String c s)) with (String "-" (String c s)).
    cbv beta iota. rewrite Hc. reflexivity.
Qed.

Lemma list_item_shape_witness :
  list_item ("    " +:+ "-" +:+ String " " " " +:+ "nested item")
    = Some "nested item"
  /\ list_item ("  " +:+ "-" +:+ String "5" " degrees") = None.
Proof.
  split.
  - apply (list_item_shape "    "); reflexivity.
  - apply (list_item_shape "  "); reflexivity.
Defined.

(** ** Markdown: the list transform on its own result *)

Lemma split_no_LF (s : string) :
  Forall (fun line => Str.mem LF line = false) (Str.split LF s).
Proof.
  induction s as [|c s IH]; [repeat constructor|].
  rewrite split_cons. pose proof (split_nonempty s) as Hne.
  destruct (Str.split LF s) as [|l ls]; [contradiction|].
  inversion IH as [|? ? Hl Hls]; subst.
  destruct (Ascii.eqb c LF) eqn:E.
  - constructor; [reflexivity|exact IH].
  - constructor; [|exact Hls]. cbn [hd Str.mem].
    rewrite Ascii.eqb_sym, E. exact Hl.
Qed.

Lemma split_one_line (s : string) :
  Str.mem LF s = false -> Str.split LF s = [s].
Proof.
  intros H. rewrite <- (app_nil_r s) at 1.
  rewrite split_line_prefix by exact H. cbn. rewrite app_nil_r. reflexivity.
Qed.

Lemma split_concat (ls : list string) :
  ls <> [] ->
  Forall (fun line => Str.mem LF line = false) ls ->
  Str.split LF (String.concat nl ls) = ls.
Proof.
  intros Hne H. induction H as [|l ls Hl Hls IH]; [contradiction|].
  destruct ls as [|l' ls].
  - apply split_one_line, Hl.
  - change (String.concat nl (l :: l' :: ls))
      with (l +:+ nl +:+ String.concat nl (l' :: ls)).
    rewrite split_app_nl, (split_one_line _ Hl), IH by discriminate.
    reflexivity.
Qed.

Lemma mem_lstrip (c : ascii) (s : string) :
  Str.mem c s = false -> Str.mem c (lstrip s) = false.
Proof.
  induction s as [|d s IH]; [reflexivity|].
  cbn [lstrip]. destruct (isspace d); [|auto].
  cbn [Str.mem]. destruct (Ascii.eqb c d); [discriminate|exact IH].
Qed.

Lemma list_item_no_LF (line content : string) :
  list_item line = Some content ->
  Str.mem LF line = false -> Str.mem LF content = false.
Proof.
  unfold list_item. intros H Hline.
  apply (mem_lstrip LF) in Hline.
  destruct (lstrip line) as [|d [|c r]]; try discriminate.
  - destruct d as [[] [] [] [] [] [] [] []]; discriminate.
  - assert (Hr : Str.mem LF r = false).
    { cbn [Str.mem] in Hline.
      destruct (Ascii.eqb LF d); [discriminate|].
      destruct (Ascii.eqb LF c); [discriminate|exact Hline]. }
    destruct d as [[] [] [] [] [] [] [] []]; try discriminate.
    destruct (isspace c); [|discriminate]. injection H as <-.
    apply mem_lstrip, Hr.
Qed.

(** The lines that the list loop produces are no list lines. *)
Lemma list_output_clean (lines : list string) (b : bool) :
  Forall (fun line => Str.mem LF line = false) lines ->
  Forall (fun line => Str.mem LF line = false /\ is_list_line line = false)
    (list_output b lines).
Proof.
  intros H. revert b. induction H as [|line lines Hl _ IH]; intros b.
  - destruct b; repeat constructor.
  - cbn [list_output]. destruct (list_item line) as [content|] eqn:E.
    + apply Forall_app. split; [destruct b; repeat constructor|].
      constructor; [|apply IH]. split.
      * change (Str.mem LF ("\item " +:+ content))
          with (Str.mem LF content).
        apply (list_item_no_LF _ _ E Hl).
      * reflexivity.
    + apply Forall_app. split; [destruct b; repeat constructor|].
      constructor; [|apply IH]. split; [exact Hl|].
      unfold is_list_line. rewrite E. reflexivity.
Qed.

Lemma list_output_nonempty (lines : list string) (b : bool) :
  lines <> [] -> list_output b lines <> [].
Proof.
  destruct lines as [|line lines]; [contradiction|]. intros _.
  cbn [list_output]. destruct (list_item line), b; discriminate.
Qed.

Lemma md_lists_eq (md : string) :
  md_lists md = String.concat nl (list_output false (Str.split LF md)).
Proof. unfold md_lists, list_loop. rewrite list_loop_from. reflexivity. Qed.

(** X13. After the list transform no line is a list line, every dash
    marker having been consumed, and applying the transform to its own
    result changes nothing: no list is opened twice. *)
Theorem md_lists_idempotent (md : string) :
  forallb (fun line => negb (is_list_line line))
    (Str.split LF (md_lists md)) = true
  /\ md_lists (md_lists md) = md_lists md.
Proof.
  pose proof (list_output_clean _ false (split_no_LF md)) as Hclean.
  pose proof (list_output_nonempty _ false (split_nonempty md)) as Hne.
  assert (Hsplit : Str.split LF (md_lists md)
                   = list_output false (Str.split LF md)).
  { rewrite md_lists_eq. apply split_concat; [exact Hne|].
    eapply Forall_impl; [exact Hclean|]. intros line [H _]. exact H. }
  assert (Hno : forallb (fun line => negb (is_list_line line))
                  (Str.split LF (md_lists md)) = true).
  { rewrite Hsplit. apply forallb_forall. intros line Hin.
    apply (proj1 (Stdlib.Lists.List.Forall_forall _ _) Hclean) in Hin
      as [_ ->].
    reflexivity. }
  split; [exact Hno|]. apply md_lists_copy, Hno.
Qed.

(** ** Markdown: the header substitutions, line by line *)

Lemma span_not_line (c : ascii) (x : string) :
  Str.mem c x = false ->
  fst (span_not c x) = x
  /\ forall z, fst (span_not c (x +:+ String c z)) = x.
Proof.
  induction x as [|d x IH]; intros H.
  - split; [reflexivity|]. intros z.
    change ("" +:+ String c z) with (String c z).
    cbn [span_not]. rewrite Ascii.eqb_refl. reflexivity.
  - cbn [Str.mem] in H. rewrite Ascii.eqb_sym in H.
    destruct (Ascii.eqb d c) eqn:E; [discriminate|].
    destruct (IH H) as [IH1 IH2]. split.
    + cbn [span_not]. rewrite E. destruct (span_not c x). cbn [fst] in *.
      rewrite IH1. reflexivity.
    + intros z. rewrite app_cons. cbn [span_not]. rewrite E.
      specialize (IH2 z). destruct (span_not c (x +:+ String c z)).
      cbn [fst] in *. rewrite IH2. reflexivity.
Qed.

(** Passing over the rest of a match that stays on one line. *)
Lemma re_sub_from_skip_line (m : matcher) (repl : string -> string)
    (x y : string) :
  Str.mem LF x = false ->
  re_sub_from m repl false (String.length x) (x +:+ y)
    = re_sub_from m repl false 0 y.
Proof.
  induction x as [|c x IH]; intros H; [reflexivity|].
  cbn [Str.mem] in H. rewrite Ascii.eqb_sym in H.
  destruct (Ascii.eqb c LF) eqn:E; [discriminate|].
  rewrite app_cons. cbn [String.length re_sub_from]. rewrite E. apply IH, H.
Qed.

(** A header pattern at the start of the line that it matches. *)
Lemma header_pass_match (hashes : string) (repl : string -> string)
    (r z : string) :
  Str.startswith "#" (hashes +:+ " ") = true ->
  Str.mem LF ((hashes +:+ " ") +:+ r) = false ->
  dot_star (r +:+ z) = r ->
  re_sub_from (pat_header hashes) repl true 0 ((hashes +:+ " ") +:+ r +:+ z)
    = repl r +:+ re_sub_from (pat_header hashes) repl false 0 z.
Proof.
  intros Hp Hlf Hg.
  assert (Hlen : String.length (hashes +:+ " ") = String.length hashes + 1)
    by apply length_app.
  assert (Hm : pat_header hashes true ((hashes +:+ " ") +:+ r +:+ z)
               = Some (r, String.length (hashes +:+ " ") + String.length r)).
  { unfold pat_header. rewrite strip_prefix_app. cbv zeta.
    rewrite Hg, Hlen. reflexivity. }
  destruct (hashes +:+ " ") as [|c p] eqn:Ep; [discriminate|].
  rewrite app_cons in *. cbn [re_sub_from]. rewrite Hm.
  cbn [Str.mem] in Hlf. rewrite Ascii.eqb_sym in Hlf.
  destruct (Ascii.eqb c LF); [discriminate|].
  f_equal. rewrite <- app_assoc.
  replace (String.length (String c p) + String.length r - 1)
    with (String.length (p +:+ r))
    by (rewrite length_app; cbn [String.length]; lia).
  apply re_sub_from_skip_line, Hlf.
Qed.

Lemma header_pass_on_line_start (hashes : string) (repl : string -> string)
    (line z : string) :
  Str.startswith "#" (hashes +:+ " ") = true ->
  Str.mem LF (hashes +:+ " ") = false ->
  Str.mem LF line = false ->
  z = "" \/ (exists x, z = nl +:+ x) ->
  re_sub_from (pat_header hashes) repl true 0 (line +:+ z)
    = header_pass_on_line hashes repl line
        +:+ re_sub_from (pat_header hashes) repl false 0 z.
Proof.
  intros Hp Hplf Hline Hz. unfold header_pass_on_line.
  destruct (Str.strip_prefix (hashes +:+ " ") line) as [r|] eqn:E.
  - apply strip_prefix_Some in E. subst line. rewrite app_assoc.
    apply header_pass_match; [exact Hp|exact Hline|].
    rewrite mem_app in Hline. apply orb_false_iff in Hline as [_ Hr].
    unfold dot_star. destruct Hz as [->|[x ->]].
    + rewrite app_nil_r. apply (span_not_line LF r Hr).
    + apply (span_not_line LF r Hr).
  - assert (Hcopy : forall y,
              re_sub_from (pat_header hashes) repl true 0 (line +:+ nl +:+ y)
              = line +:+ nl +:+ re_sub_from (pat_header hashes) repl true 0 y).
    { intros y. apply header_pass_prefix; [exact Hp|exact Hplf|].
      rewrite <- (app_nil_r line) at 1.
      rewrite split_line_prefix by exact Hline. cbn [Str.split hd tl forallb].
      rewrite app_nil_r. unfold Str.startswith. rewrite E. reflexivity. }
    destruct Hz as [->|[x ->]].
    + rewrite app_nil_r.
      rewrite (re_sub_header_copy hashes repl line true Hplf).
      * cbn [re_sub_from]. rewrite app_nil_r. reflexivity.
      * rewrite <- (app_nil_r line) at 1.
        rewrite split_line_prefix by exact Hline.
        cbn [Str.split hd tl forallb].
        rewrite app_nil_r. unfold Str.startswith. rewrite E. reflexivity.
    + rewrite Hcopy. reflexivity.
Qed.

Lemma header_pass_lines (hashes : string) (repl : string -> string)
    (lines : list string) :
  Str.startswith "#" (hashes +:+ " ") = true ->
  Str.mem LF (hashes +:+ " ") = false ->
  Forall (fun line => Str.mem LF line = false) lines ->
  re_sub (pat_header hashes) repl (String.concat nl lines)
    = String.concat nl (map (header_pass_on_line hashes repl) lines).
Proof.
  intros Hp Hplf H. unfold re_sub.
  induction H as [|line lines Hl Hls IH]; [reflexivity|].
  destruct lines as [|line' lines].
  - cbn [map String.concat]. rewrite <- (app_nil_r line) at 1.
    rewrite header_pass_on_line_start by auto.
    cbn [re_sub_from]. apply app_nil_r.
  - change (String.concat nl (line :: line' :: lines))
      with (line +:+ nl +:+ String.concat nl (line' :: lines)).
    rewrite header_pass_on_line_start by eauto.
    change (map (header_pass_on_line hashes repl) (line :: line' :: lines))
      with (header_pass_on_line hashes repl line
              :: map (header_pass_on_line hashes repl) (line' :: lines)).
    change (String.concat nl (?a :: map ?f (line' :: lines)))
      with (a +:+ nl +:+ String.concat nl (map f (line' :: lines))).
    rewrite <- IH. reflexivity.
Qed.

Lemma header_pass_on_line_no_LF (hashes cmd : string) (line : string) :
  Str.mem LF cmd = false ->
  Str.mem LF line = false ->
  Str.mem LF (header_pass_on_line hashes (template cmd) line) = false.
Proof.
  intros Hcmd Hline. unfold header_pass_on_line.
  destruct (Str.strip_prefix _ line) as [r|] eqn:E; [|exact Hline].
  apply strip_prefix_Some in E. subst line.
  rewrite mem_app in Hline. apply orb_false_iff in Hline as [_ Hr].
  unfold template. rewrite !mem_app, Hcmd, Hr. reflexivity.
Qed.

Lemma md_headers_lines (lines : list string) :
  Forall (fun line => Str.mem LF line = false) lines ->
  md_headers (String.concat nl lines)
    = String.concat nl (map header_line lines)
  /\ Forall (fun line => Str.mem LF line = false) (map header_line lines).
Proof.
  intros H.
  assert (H1 : Forall (fun line => Str.mem LF line = false)
                 (map (header_pass_on_line "#" (template "section")) lines)).
  { apply Forall_map. eapply Forall_impl; [exact H|].
    intros line. apply header_pass_on_line_no_LF. reflexivity. }
  assert (H2 : Forall (fun line => Str.mem LF line = false)
                 (map (header_pass_on_line "##" (template "subsection"))
                    (map (header_pass_on_line "#" (template "section")) lines))).
  { apply Forall_map. eapply Forall_impl; [exact H1|].
    intros line. apply header_pass_on_line_no_LF. reflexivity. }
  unfold md_headers.
  rewrite (header_pass_lines "#"), (header_pass_lines "##"),
    (header_pass_lines "###"), !map_map by (reflexivity || assumption).
  split; [reflexivity|].
  rewrite !map_map in H2. apply Forall_map.
  apply Forall_map in H2. eapply Forall_impl; [exact H2|].
  intros line. apply header_pass_on_line_no_LF. reflexivity.
Qed.

(** X14. The header substitutions work line by line.  The result of
    [md_headers] is the text with each line replaced by [header_line]
    of it: a line that begins with one, two or three [#] and a space
    becomes the sectioning command of that level around the rest of
    the line, unescaped, and a line that begins with none of the three
    markers is left as it is. *)
Theorem md_headers_by_line (md : string) :
  md_headers md = String.concat nl (map header_line (Str.split LF md))
  /\ (forall hashes cmd t,
        In (hashes, cmd) header_levels ->
        header_line (hashes +:+ " " +:+ t) = "\" +:+ cmd +:+ "{" +:+ t +:+ "}")
  /\ (forall line, is_header_line line = false -> header_line line = line).
Proof.
  split; [|split].
  - rewrite <- (join_split md) at 1. apply md_headers_lines, split_no_LF.
  - intros hashes cmd t [E|[E|[E|[]]]]; injection E as <- <-; reflexivity.
  - intros line. unfold is_header_line, Str.startswith.
    rewrite !orb_false_iff. intros [[H1 H2] H3].
    unfold header_line, header_pass_on_line.
    change ("#" +:+ " ") with "# ". change ("##" +:+ " ") with "## ".
    change ("###" +:+ " ") with "### ".
    destruct (Str.strip_prefix "# " line); [discriminate|].
    destruct (Str.strip_prefix "## " line); [discriminate|].
    destruct (Str.strip_prefix "### " line); [discriminate|].
    reflexivity.
Qed.

Lemma mem_concat_lines (c : ascii) (lines : list string) :
  Str.mem c (String.concat nl lines) = false ->
  Forall (fun line => Str.mem c line = false) lines.
Proof.
  induction lines as [|line lines IH]; intros H; [constructor|].
  destruct lines as [|line' lines]; [repeat constructor; exact H|].
  change (String.concat nl (line :: line' :: lines))
    with (line +:+ nl +:+ String.concat nl (line' :: lines)) in H.
  rewrite !mem_app, !orb_false_iff in H. destruct H as (Hl & _ & Hr).
  constructor; [exact Hl|apply IH, Hr].
Qed.

Lemma mem_concat (c : ascii) (lines : list string) :
  Ascii.eqb c LF = false ->
  Forall (fun line => Str.mem c line = false) lines ->
  Str.mem c (String.concat nl lines) = false.
Proof.
  intros Hc H. induction H as [|line lines Hl Hls IH]; [reflexivity|].
  destruct lines as [|line' lines]; [exact Hl|].
  change (String.concat nl (line :: line' :: lines))
    with (line +:+ nl +:+ String.concat nl (line' :: lines)).
  rewrite !mem_app, Hl, IH. cbn [Str.mem nl]. rewrite Hc. reflexivity.
Qed.

Lemma header_line_no_star (line : string) :
  Str.mem "*" line = false -> Str.mem "*" (header_line line) = false.
Proof.
  assert (Hpass : forall hashes cmd l,
            Str.mem "*" cmd = false ->
            Str.mem "*" l = false ->
            Str.mem "*" (header_pass_on_line hashes (template cmd) l) = false).
  { intros hashes cmd l Hcmd Hlm. unfold header_pass_on_line.
    destruct (Str.strip_prefix _ l) as [r|] eqn:E; [|exact Hlm].
    apply strip_prefix_Some in E. subst l.
    rewrite mem_app in Hlm. apply orb_false_iff in Hlm as [_ Hr].
    unfold template. rewrite !mem_app, Hcmd, Hr. reflexivity. }
  intros Hline. unfold header_line.
  repeat apply Hpass; try exact Hline; reflexivity.
Qed.

(** X15. A Markdown text without backticks and asterisks is converted
    line by line: the header lines become sectioning commands, then
    the list loop groups the list lines; nothing else is changed, and
    in particular no character is escaped. *)
Theorem markdown_body_by_line (md : string) :
  Str.mem "`" md = false ->
  Str.mem "*" md = false ->
  markdown_body md
    = String.concat nl (list_output false (map header_line (Str.split LF md))).
Proof.
  intros Hq Hstar. unfold markdown_body.
  rewrite (md_code_blocks_copy _ Hq).
  unfold md_inline_code.
  rewrite (re_sub_copy pat_inline_code _ (fun _ _ _ => eq_refl) "`"
             pat_inline_code_first) by exact Hq.
  destruct (md_headers_lines _ (split_no_LF md)) as [Hh Hlf].
  rewrite join_split in Hh. rewrite Hh.
  assert (Hstar' : Str.mem "*" (String.concat nl (map header_line (Str.split LF md)))
                   = false).
  { apply mem_concat; [reflexivity|]. apply Forall_map.
    rewrite <- (join_split md) in Hstar. apply mem_concat_lines in Hstar.
    eapply Forall_impl; [exact Hstar|].
    intros line. apply header_line_no_star. }
  unfold md_emphasis.
  rewrite (re_sub_copy pat_bold _ (delimited_no_anchor false "**" "**") "*"
             (delimited_first false "*" "*" "**")) by exact Hstar'.
  rewrite (re_sub_copy pat_italic _ (delimited_no_anchor false "*" "*") "*"
             (delimited_first false "*" "" "*")) by exact Hstar'.
  rewrite md_lists_eq. rewrite split_concat; [reflexivity| |exact Hlf].
  pose proof (split_nonempty md). destruct (Str.split LF md); [contradiction|].
  discriminate.
Qed.

Lemma markdown_body_by_line_witness :
  markdown_body
    ("# Plan" +:+ nl +:+ "- 50% done" +:+ nl +:+ "  - next_step" +:+ nl
       +:+ "## Notes")
    = "\section{Plan}" +:+ nl +:+ "\begin{itemize}" +:+ nl
        +:+ "\item 50% done" +:+ nl +:+ "\item next_step" +:+ nl
        +:+ "\end{itemize}" +:+ nl +:+ "\subsection{Notes}".
Proof.
  apply (markdown_body_by_line
           ("# Plan" +:+ nl +:+ "- 50% done" +:+ nl +:+ "  - next_step" +:+ nl
              +:+ "## Notes")); reflexivity.
Defined.

(** ** Markdown: one span of inline code or emphasis *)

Section ReSubMatch.
Variables (m : matcher) (repl : string -> string).
Hypothesis m_no_anchor : forall (b b' : bool) (s : string), m b s = m b' s.

(** The substitution at a position where the pattern matches [x]. *)
Lemma re_sub_from_match (b : bool) (x y g : string) :
  x <> "" ->
  m b (x +:+ y) = Some (g, String.length x) ->
  re_sub_from m repl b 0 (x +:+ y) = repl g +:+ re_sub_from m repl b 0 y.
Proof.
  intros Hx Hm. destruct x as [|c x]; [contradiction|].
  rewrite app_cons in *. cbn [re_sub_from]. rewrite Hm.
  cbn [String.length]. rewrite Nat.sub_1_r. cbn [Nat.pred].
  rewrite (re_sub_from_skip m repl m_no_anchor). f_equal.
  apply (re_sub_from_bol m repl m_no_anchor).
Qed.

End ReSubMatch.

Lemma template_app (cmd g post : string) :
  template cmd g +:+ post = ("\" +:+ cmd +:+ "{") +:+ g +:+ "}" +:+ post.
Proof. unfold template. rewrite !app_assoc. reflexivity. Qed.

Lemma lazy_until_found (dotall : bool) (a : ascii) (close t post : string) :
  Str.mem a t = false ->
  dotall = true \/ Str.mem LF t = false ->
  lazy_until dotall (String a close) (t +:+ String a close +:+ post) = Some t.
Proof.
  intros Ha Hlf. induction t as [|c t IH].
  - change ("" +:+ String a close +:+ post) with (String a close +:+ post).
    destruct (String a close +:+ post) eqn:E;
      cbn [lazy_until]; rewrite <- ?E, strip_prefix_app; reflexivity.
  - cbn [Str.mem] in Ha. destruct (Ascii.eqb a c) eqn:E; [discriminate|].
    rewrite app_cons. cbn [lazy_until].
    rewrite strip_prefix_first by (rewrite Ascii.eqb_sym; exact E).
    assert (Hc : negb dotall && Ascii.eqb c LF = false).
    { destruct Hlf as [->|Hlf]; [reflexivity|].
      cbn [Str.mem] in Hlf. rewrite Ascii.eqb_sym in Hlf.
      destruct (Ascii.eqb c LF); [discriminate|apply andb_false_r]. }
    rewrite Hc, IH; [reflexivity|exact Ha|].
    destruct Hlf as [->|Hlf]; [left; reflexivity|right].
    cbn [Str.mem] in Hlf. destruct (Ascii.eqb LF c); [discriminate|exact Hlf].
Qed.

Lemma lazy_until_absent (dotall : bool) (a : ascii) (close s : string) :
  Str.mem a s = false -> lazy_until dotall (String a close) s = None.
Proof.
  induction s as [|c s IH]; intros H; [reflexivity|].
  cbn [Str.mem] in H. destruct (Ascii.eqb a c) eqn:E; [discriminate|].
  cbn [lazy_until].
  rewrite strip_prefix_first by (rewrite Ascii.eqb_sym; exact E).
  rewrite (IH H). destruct (negb dotall && Ascii.eqb c LF); reflexivity.
Qed.

Lemma span_not_app (c : ascii) (x z : string) :
  Str.mem c x = false ->
  span_not c (x +:+ String c z) = (x, String c z).
Proof.
  induction x as [|d x IH]; intros H.
  - change ("" +:+ String c z) with (String c z).
    cbn [span_not]. rewrite Ascii.eqb_refl. reflexivity.
  - cbn [Str.mem] in H. rewrite Ascii.eqb_sym in H.
    destruct (Ascii.eqb d c) eqn:E; [discriminate|].
    rewrite app_cons. cbn [span_not]. rewrite E, (IH H). reflexivity.
Qed.

Lemma first_not_mem (c : ascii) (s : string) :
  Str.mem c s = false ->
  match s with String d _ => Ascii.eqb d c = false | "" => True end.
Proof.
  destruct s as [|d s]; [trivial|]. cbn [Str.mem]. rewrite Ascii.eqb_sym.
  destruct (Ascii.eqb d c); [discriminate|reflexivity].
Qed.

(** X16. One emphasis span: between texts without asterisks, a text
    between double asterisks becomes bold and a text between single
    asterisks becomes italic, provided it has no asterisk and no line
    feed; the delimiters are consumed and the texts around the span are
    kept. *)
Theorem md_emphasis_span (pre t post : string) :
  Str.mem "*" pre = false ->
  Str.mem "*" t = false ->
  Str.mem LF t = false ->
  Str.mem "*" post = false ->
  md_emphasis (pre +:+ "**" +:+ t +:+ "**" +:+ post)
    = pre +:+ "\textbf{" +:+ t +:+ "}" +:+ post
  /\ md_emphasis (pre +:+ "*" +:+ t +:+ "*" +:+ post)
    = pre +:+ "\textit{" +:+ t +:+ "}" +:+ post.
Proof.
  intros Hpre Ht Hlf Hpost.
  pose proof (re_sub_from_copy pat_bold (template "textbf")
                (delimited_no_anchor false "**" "**") "*"
                (delimited_first false "*" "*" "**")) as Hbold.
  pose proof (re_sub_from_copy pat_italic (template "textit")
                (delimited_no_anchor false "*" "*") "*"
                (delimited_first false "*" "" "*")) as Hital.
  assert (Hend_b : re_sub_from pat_bold (template "textbf") true 0 post = post).
  { rewrite <- (app_nil_r post) at 1. rewrite Hbold by exact Hpost.
    apply app_nil_r. }
  assert (Hend_i : re_sub_from pat_italic (template "textit") true 0 post = post).
  { rewrite <- (app_nil_r post) at 1. rewrite Hital by exact Hpost.
    apply app_nil_r. }
  unfold md_emphasis, re_sub. split.
  - rewrite Hbold by exact Hpre.
    replace ("**" +:+ t +:+ "**" +:+ post)
      with (("**" +:+ t +:+ "**") +:+ post)
      by (rewrite !app_assoc; reflexivity).
    rewrite (re_sub_from_match pat_bold _
               (delimited_no_anchor false "**" "**") true _ post t).
    + rewrite Hend_b, template_app.
      change ("\" +:+ "textbf" +:+ "{") with "\textbf{".
      rewrite <- (app_nil_r (pre +:+ "\textbf{" +:+ t +:+ "}" +:+ post)) at 1.
      rewrite Hital; [apply app_nil_r|].
      rewrite !mem_app, Hpre, Ht, Hpost. reflexivity.
    + discriminate.
    + unfold pat_bold, delimited.
      rewrite !app_assoc, strip_prefix_app.
      rewrite (lazy_until_found false "*" "*" t post Ht (or_intror Hlf)).
      rewrite !length_app. cbn [String.length]. do 2 f_equal; lia.
  - assert (Hb : re_sub_from pat_bold (template "textbf") true 0
                   (pre +:+ "*" +:+ t +:+ "*" +:+ post)
                 = pre +:+ "*" +:+ t +:+ "*" +:+ post).
    { rewrite Hbold by exact Hpre. f_equal.
      assert (Hlast : re_sub_from pat_bold (template "textbf") true 0
                        ("*" +:+ post) = "*" +:+ post).
      { change ("*" +:+ post) with (String "*" post). cbn [re_sub_from].
        assert (Hn : pat_bold true (String "*" post) = None).
        { pose proof (first_not_mem _ _ Hpost) as Hf.
          destruct post as [|d post]; [reflexivity|].
          unfold pat_bold, delimited. cbn [Str.strip_prefix].
          rewrite Ascii.eqb_refl, Ascii.eqb_sym, Hf. reflexivity. }
        rewrite Hn. f_equal.
        rewrite (re_sub_from_bol pat_bold _
                   (delimited_no_anchor false "**" "**") _ true).
        exact Hend_b. }
      change ("*" +:+ t +:+ "*" +:+ post)
        with (String "*" (t +:+ "*" +:+ post)).
      cbn [re_sub_from].
      assert (Hn : pat_bold true (String "*" (t +:+ "*" +:+ post)) = None).
      { pose proof (first_not_mem _ _ Ht) as Hf.
        unfold pat_bold, delimited. destruct t as [|d t].
        - change ("" +:+ "*" +:+ post) with (String "*" post).
          cbn [Str.strip_prefix]. rewrite !Ascii.eqb_refl.
          rewrite (lazy_until_absent false "*" "*" post Hpost). reflexivity.
        - rewrite app_cons. cbn [Str.strip_prefix].
          rewrite Ascii.eqb_refl, Ascii.eqb_sym, Hf. reflexivity. }
      rewrite Hn. f_equal.
      rewrite (re_sub_from_bol pat_bold _
                 (delimited_no_anchor false "**" "**") _ true).
      rewrite Hbold by exact Ht. rewrite Hlast. reflexivity. }
    rewrite Hb, Hital by exact Hpre.
    replace ("*" +:+ t +:+ "*" +:+ post)
      with (("*" +:+ t +:+ "*") +:+ post)
      by (rewrite !app_assoc; reflexivity).
    rewrite (re_sub_from_match pat_italic _
               (delimited_no_anchor false "*" "*") true _ post t).
    + rewrite Hend_i, template_app. reflexivity.
    + discriminate.
    + unfold pat_italic, delimited.
      rewrite !app_assoc, strip_prefix_app.
      rewrite (lazy_until_found false "*" "" t post Ht (or_intror Hlf)).
      rewrite !length_app. cbn [String.length]. do 2 f_equal; lia.
Qed.

Lemma md_emphasis_span_witness :
  md_emphasis ("a " +:+ "**" +:+ "b_c" +:+ "**" +:+ " d")
    = "a " +:+ "\textbf{" +:+ "b_c" +:+ "}" +:+ " d"
  /\ md_emphasis ("a " +:+ "*" +:+ "b_c" +:+ "*" +:+ " d")
    = "a " +:+ "\textit{" +:+ "b_c" +:+ "}" +:+ " d".
Proof. apply (md_emphasis_span "a " "b_c" " d"); reflexivity. Defined.

(** X17. One span of inline code: a non-empty text between two
    backticks, which may run over several lines, becomes the argument
    of [\texttt], unescaped; when the text so obtained has no other
    markup, it is the body. *)
Theorem inline_code_span (pre t post : string) :
  t <> "" ->
  markup_free (pre +:+ "\texttt{" +:+ t +:+ "}" +:+ post) = true ->
  markdown_body (pre +:+ "`" +:+ t +:+ "`" +:+ post)
    = pre +:+ "\texttt{" +:+ t +:+ "}" +:+ post.
Proof.
  intros Hne Hfree.
  assert (Hq : Str.mem "`" (pre +:+ "\texttt{" +:+ t +:+ "}" +:+ post) = false).
  { unfold markup_free in Hfree. rewrite !andb_true_iff in Hfree.
    destruct Hfree as [[Hq _] _]. apply negb_true_iff, Hq. }
  pose proof Hq as Hparts. rewrite !mem_app, !orb_false_iff in Hparts.
  destruct Hparts as (Hpre & _ & Ht & _ & Hpost).
  pose proof (first_not_mem _ _ Ht) as Hft.
  pose proof (first_not_mem _ _ Hpost) as Hfp.
  pose proof (re_sub_from_copy pat_code_block code_block_repl
                (delimited_no_anchor true "```" "```") "`"
                (delimited_first true "`" "``" "```")) as Hcode.
  pose proof (re_sub_from_copy pat_inline_code (template "texttt")
                (fun _ _ _ => eq_refl) "`" pat_inline_code_first) as Hinl.
  assert (H1 : md_code_blocks (pre +:+ "`" +:+ t +:+ "`" +:+ post)
               = pre +:+ "`" +:+ t +:+ "`" +:+ post).
  { unfold md_code_blocks, re_sub. rewrite Hcode by exact Hpre. f_equal.
    change ("`" +:+ t +:+ "`" +:+ post) with (String "`" (t +:+ "`" +:+ post)).
    cbn [re_sub_from].
    assert (Hn : pat_code_block true (String "`" (t +:+ "`" +:+ post)) = None).
    { unfold pat_code_block, delimited.
      destruct t as [|d t]; [contradiction|].
      rewrite app_cons. cbn [Str.strip_prefix].
      rewrite Ascii.eqb_refl, Ascii.eqb_sym, Hft. reflexivity. }
    rewrite Hn. f_equal.
    rewrite (re_sub_from_bol pat_code_block _
               (delimited_no_anchor true "```" "```") _ true).
    rewrite Hcode by exact Ht. f_equal.
    change ("`" +:+ post) with (String "`" post). cbn [re_sub_from].
    assert (Hn' : pat_code_block true (String "`" post) = None).
    { unfold pat_code_block, delimited.
      destruct post as [|d post]; [reflexivity|].
      cbn [Str.strip_prefix].
      rewrite Ascii.eqb_refl, Ascii.eqb_sym, Hfp. reflexivity. }
    rewrite Hn'. f_equal.
    rewrite (re_sub_from_bol pat_code_block _
               (delimited_no_anchor true "```" "```") _ true).
    rewrite <- (app_nil_r post) at 1. rewrite Hcode by exact Hpost.
    apply app_nil_r. }
  assert (H2 : md_inline_code (pre +:+ "`" +:+ t +:+ "`" +:+ post)
               = pre +:+ "\texttt{" +:+ t +:+ "}" +:+ post).
  { unfold md_inline_code, re_sub. rewrite Hinl by exact Hpre. f_equal.
    replace ("`" +:+ t +:+ "`" +:+ post)
      with (("`" +:+ t +:+ "`") +:+ post)
      by (rewrite !app_assoc; reflexivity).
    rewrite (re_sub_from_match pat_inline_code _ (fun _ _ _ => eq_refl)
               true _ post t).
    - rewrite template_app. do 3 f_equal.
      rewrite <- (app_nil_r post) at 1. rewrite Hinl by exact Hpost.
      apply app_nil_r.
    - discriminate.
    - rewrite !app_assoc.
      change ("`" +:+ t +:+ "`" +:+ post)
        with (String "`" (t +:+ String "`" post)).
      unfold pat_inline_code. rewrite (span_not_app _ _ _ Ht).
      destruct t as [|d t]; [contradiction|].
      rewrite !length_app. cbn [String.length]. do 2 f_equal; lia. }
  unfold markdown_body. rewrite H1, H2.
  pose proof (markup_free_copy _ Hfree) as Hrest.
  unfold md_inline_code in Hrest.
  rewrite (re_sub_copy pat_inline_code _ (fun _ _ _ => eq_refl) "`"
             pat_inline_code_first) in Hrest by exact Hq.
  exact Hrest.
Qed.

Lemma inline_code_span_witness :
  markdown_body ("run " +:+ "`" +:+ "make all_$x" +:+ "`" +:+ " first")
    = "run " +:+ "\texttt{" +:+ "make all_$x" +:+ "}" +:+ " first".
Proof.
  apply (inline_code_span "run " "make all_$x" " first");
    [discriminate|reflexivity].
Defined.

(** ** The command line *)

Lemma take_drop (n : nat) (s : string) : take n s +:+ Str.drop n s = s.
Proof.
  revert s. induction n as [|n IH]; intros s; [reflexivity|].
  destruct s as [|c s]; [reflexivity|].
  cbn [take Str.drop]. rewrite app_cons, IH. reflexivity.
Qed.

Lemma splitext_join (p : string) : fst (splitext p) +:+ snd (splitext p) = p.
Proof.
  unfold splitext. case_match; cbn [fst snd];
    [apply take_drop|apply app_nil_r].
Qed.

Lemma app_inv_head (a b c : string) : a +:+ b = a +:+ c -> b = c.
Proof.
  induction a as [|x a IH]; [auto|].
  rewrite !app_cons. intros H. injection H as H. auto.
Qed.

Section Main.
Context {rt : Runtime} {sto : Storage} {cl : CommandLine}.

(** What a run of [convert] leaves behind, by its result. *)
Lemma run_convert_outcome (ip op : string) (opts : gmap string pyval)
    (w : world) :
  let '(r, st) := run_convert ip op opts w in
  match r with
  | Ok _ =>
      In (lower (snd (splitext ip))) supported
      /\ (exists doc printed,
            open_w op = None /\ write_w op doc = None
            /\ fs (outside st) = <[op := utf8_encode doc]> (fs w)
            /\ stdout (outside st) =
                 printed ++ ["Conversion successful! Output saved to: " +:+ op])
  | Raise e =>
      fs (outside st) = fs w
      \/ (exists doc partial,
            open_w op = None /\ write_w op doc = Some (e, partial)
            /\ fs (outside st) = <[op := partial]> (fs w))
  end.
Proof.
  rewrite run_convert_eq.
  destruct (dispatch_cases (lower (snd (splitext ip))))
    as [[Hext ->]|(prefix & block & Hin & ->)]; [left; reflexivity|].
  destruct (block (parser_start ip op opts w)) as [[[]|cause] st2] eqn:Hblock;
    destruct (parser_frame _ _ _ _ _ _ Hin Hblock) as (Hfs & _ & Hop & _);
    [|left; exact Hfs].
  rewrite emit_document_cases. cbv zeta.
  change (output_path (self (parser_start ip op opts w))) with op in Hop.
  change (fs (outside (parser_start ip op opts w))) with (fs w) in Hfs.
  rewrite Hop.
  destruct (open_w op) as [e|] eqn:Hopen;
    [|destruct (write_w op (full_document (self st2))) as [[e partial]|]
        eqn:Hwrite].
  - left. exact Hfs.
  - right. exists (full_document (self st2)), partial.
    split; [reflexivity|]. split; [exact Hwrite|].
    unfold set_file. cbn [outside fs]. rewrite Hfs. reflexivity.
  - split.
    + unfold parser_table in Hin. cbn [In] in Hin. unfold supported.
      destruct Hin as [Hin|[Hin|[Hin|[Hin|[]]]]]; injection Hin as <- _ _;
        cbn [In]; auto.
    + exists (full_document (self st2)), (stdout (outside st2)).
      split; [reflexivity|]. split; [exact Hwrite|].
      cbn [outside fs stdout]. rewrite Hfs. split; reflexivity.
Qed.


Lemma main_returned (argv : list string) (args : Namespace) (w w' : world) :
  parse_args argv = Parsed args ->
  main argv w = (Returned, w') ->
  In (lower (snd (splitext (input_file args)))) supported
  /\ exists doc, fs w' = <[chosen_output args := utf8_encode doc]> (fs w).
Proof.
  unfold main. intros ->.
  destruct (exists_path w (input_file args)); cbn [negb];
    [|discriminate].
  pose proof (run_convert_outcome (input_file args) (chosen_output args)
                (pack_options args) w) as Hrun.
  destruct (run_convert (input_file args) (chosen_output args)
              (pack_options args) w) as [[[]|e] st]; [|discriminate].
  intros H. injection H as <-.
  destruct Hrun as (Hext & doc & _ & _ & _ & Hdoc & _).
  split; [exact Hext|]. exists doc. exact Hdoc.
Qed.

(** X19. Without [--output], a run of [main] that returns has written
    the document beside the input, under the name of the input with
    its extension replaced by [.tex]; that path differs from the input
    path, and the input file is as it was. *)
Theorem main_default_output_keeps_input (argv : list string)
    (args : Namespace) (w w' : world) :
  parse_args argv = Parsed args ->
  truthy (output args) = false ->
  main argv w = (Returned, w') ->
  default_output (input_file args) <> input_file args
  /\ fs w' !! input_file args = fs w !! input_file args
  /\ exists doc,
       fs w' !! default_output (input_file args) = Some (utf8_encode doc).
Proof.
  intros Hargs Hout Hmain.
  destruct (main_returned _ _ _ _ Hargs Hmain) as (Hext & doc & Hfs).
  unfold chosen_output in Hfs. rewrite Hout in Hfs. cbn [negb] in Hfs.
  assert (Hne : default_output (input_file args) <> input_file args).
  { unfold default_output. cbv zeta. intros Heq.
    rewrite <- (splitext_join (input_file args)) in Heq at 2.
    apply app_inv_head in Heq. rewrite <- Heq in Hext.
    vm_compute in Hext. intuition discriminate. }
  split; [exact Hne|]. rewrite Hfs. split.
  - apply lookup_insert_ne, Hne.
  - exists doc. apply lookup_insert_eq.
Qed.

End Main.

Lemma main_default_output_keeps_input_witness :
  let argv := ["notes/a.b.txt"] in
  let w := one_file "notes/a.b.txt" "50% done" in
  default_output "notes/a.b.txt" = "notes/a.b.tex"
  /\ fs (snd (main (rt := text_only) (cl := input_only) argv w))
       !! "notes/a.b.txt"
     = Some "50% done"
  /\ exists doc,
       fs (snd (main (rt := text_only) (cl := input_only) argv w))
         !! "notes/a.b.tex" = Some doc.
Proof.
  cbv zeta.
  destruct (main_default_output_keeps_input (rt := text_only)
              (cl := input_only) ["notes/a.b.txt"]
              (mkNamespace "notes/a.b.txt" None "article" "12pt" "margin=1in"
                 None None)
              (one_file "notes/a.b.txt" "50% done")
              (snd (main (rt := text_only) (cl := input_only)
                      ["notes/a.b.txt"]
                      (one_file "notes/a.b.txt" "50% done"))))
    as (_ & Hin & doc & Hdoc);
    [reflexivity|reflexivity|vm_compute; reflexivity|].
  split; [vm_compute; reflexivity|]. split.
  - cbn [input_file] in Hin. rewrite Hin. vm_compute. reflexivity.
  - exists (utf8_encode (Runtime := text_only) doc). exact Hdoc.
Defined.

(** ** DOCX: the rows of a table *)

(** The escaper adds no column separator: every ampersand that it
    leaves follows a backslash. *)
Lemma bare_from_escaped (t rest : string) :
  bare_from false "&" (pattern_sub t +:+ rest) = bare_from false "&" rest.
Proof.
  induction t as [|c t IH]; [reflexivity|].
  rewrite pattern_sub_cons. destruct (chars_get chars c) as [r|] eqn:E.
  - rewrite app_assoc, <- IH. apply chars_get_In in E.
    unfold chars in E. cbn [In] in E.
    repeat (destruct E as [E|E]; [injection E as <- <-; reflexivity|]).
    contradiction.
  - rewrite app_cons. cbn [bare_from].
    destruct (Ascii.eqb_spec c "\") as [->|_]; [discriminate E|].
    destruct (Ascii.eqb_spec c "&") as [->|_]; [discriminate E|].
    exact IH.
Qed.

Lemma table_row_cons (cell cell' : string) (row : list string) :
  table_row (cell :: cell' :: row)
    = pattern_sub (strip cell) +:+ " & " +:+ table_row (cell' :: row).
Proof.
  unfold table_row.
  change (map ?f (cell :: cell' :: row)) with (f cell :: map f (cell' :: row)).
  change (String.concat " & " (?a :: map ?f (cell' :: row)))
    with (a +:+ " & " +:+ String.concat " & " (map f (cell' :: row))).
  cbv beta. rewrite (escape_latex_eq (strip cell)), !app_assoc. reflexivity.
Qed.

(** X20. The rows of a DOCX table.  The table is the tabular
    environment around one line per row, and in the line of a row the
    ampersands that no backslash escapes are the separators alone, one
    less than the row has cells, whatever text the cells hold: an
    ampersand in a cell never opens a column. *)
Theorem table_row_separators (table : Table) :
  _process_docx_table table
    = "\begin{table}[H]" +:+ nl +:+ "\centering" +:+ nl
        +:+ "\begin{tabular}{|" +:+ repeat_str "l|" (table_columns table)
        +:+ "}" +:+ nl +:+ "\hline" +:+ nl
        +:+ String.concat nl (map table_row (table_rows table)) +:+ nl
        +:+ "\end{tabular}" +:+ nl +:+ "\end{table}"
  /\ Forall (fun row => bare_count "&" (table_row row) = length row - 1)
       (table_rows table).
Proof.
  split; [reflexivity|]. apply Stdlib.Lists.List.Forall_forall.
  intros row _. unfold bare_count.
  induction row as [|cell row IH]; [reflexivity|].
  destruct row as [|cell' row].
  - unfold table_row. cbn [map String.concat].
    rewrite escape_latex_eq, bare_from_escaped. reflexivity.
  - rewrite table_row_cons, bare_from_escaped.
    change (bare_from false "&" (" & " +:+ table_row (cell' :: row)))
      with (S (bare_from false "&" (table_row (cell' :: row)))).
    rewrite IH. cbn [length]. lia.
Qed.

(** ** Fenced blocks: no placeholder *)

(** Transforms 2 to 5 on a text without backticks and asterisks. *)
Lemma later_steps_by_line (s : string) :
  Str.mem "`" s = false ->
  Str.mem "*" s = false ->
  md_lists (md_emphasis (md_headers (md_inline_code s)))
    = String.concat nl (list_output false (map header_line (Str.split LF s))).
Proof.
  intros Hq Hstar. unfold md_inline_code.
  rewrite (re_sub_copy pat_inline_code _ (fun _ _ _ => eq_refl) "`"
             pat_inline_code_first) by exact Hq.
  destruct (md_headers_lines _ (split_no_LF s)) as [Hh Hlf].
  rewrite join_split in Hh. rewrite Hh.
  assert (Hstar' : Str.mem "*" (String.concat nl (map header_line (Str.split LF s)))
                   = false).
  { apply mem_concat; [reflexivity|]. apply Forall_map.
    rewrite <- (join_split s) in Hstar. apply mem_concat_lines in Hstar.
    eapply Forall_impl; [exact Hstar|].
    intros line. apply header_line_no_star. }
  unfold md_emphasis.
  rewrite (re_sub_copy pat_bold _ (delimited_no_anchor false "**" "**") "*"
             (delimited_first false "*" "*" "**")) by exact Hstar'.
  rewrite (re_sub_copy pat_italic _ (delimited_no_anchor false "*" "*") "*"
             (delimited_first false "*" "" "*")) by exact Hstar'.
  rewrite md_lists_eq. rewrite split_concat; [reflexivity| |exact Hlf].
  pose proof (split_nonempty s). destruct (Str.split LF s); [contradiction|].
  discriminate.
Qed.

(** C1, on the code.  [parse_markdown] has no placeholder: the first
    transform puts the listing environment with the fenced content
    into the text at once, and the four transforms after it run over
    the whole of that text, the fenced content included.  So a fenced
    block whose content is a line that begins with [# ] does not come
    out byte for byte: the header transform makes a [\section] command
    of that line, inside the listing. *)
Theorem fenced_header_line_rewritten (t : string) :
  Str.mem LF t = false ->
  Str.mem "`" t = false ->
  Str.mem "*" t = false ->
  let code := nl +:+ "# " +:+ t +:+ nl in
  let md := "```" +:+ code +:+ "```" in
  md_code_blocks md = code_block_repl code
  /\ markdown_body md
     = "\begin{lstlisting}" +:+ nl +:+ nl +:+ "\section{" +:+ t +:+ "}"
         +:+ nl +:+ nl +:+ "\end{lstlisting}"
  /\ markdown_body md <> code_block_repl code.
Proof.
  intros Hlf Hq Hstar code md.
  assert (Hcode : Str.mem "`" code = false).
  { unfold code. rewrite !mem_app, Hq. reflexivity. }
  assert (Hfirst : md_code_blocks md = code_block_repl code).
  { pose proof (md_code_blocks_fence "" code "" eq_refl Hcode) as H.
    rewrite !app_nil_l, !app_nil_r in H. exact H. }
  assert (Hbody : markdown_body md
                  = "\begin{lstlisting}" +:+ nl +:+ nl +:+ "\section{" +:+ t
                      +:+ "}" +:+ nl +:+ nl +:+ "\end{lstlisting}").
  { unfold markdown_body. rewrite Hfirst.
    rewrite later_steps_by_line.
    - replace (code_block_repl code)
        with ("\begin{lstlisting}" +:+ nl +:+ "" +:+ nl +:+ ("# " +:+ t)
                +:+ nl +:+ "" +:+ nl +:+ "\end{lstlisting}")
        by (unfold code_block_repl, code; rewrite !app_assoc; reflexivity).
      rewrite !split_app_nl.
      rewrite (split_one_line ("# " +:+ t)) by exact Hlf.
      change (Str.split LF "\begin{lstlisting}") with ["\begin{lstlisting}"].
      change (Str.split LF "\end{lstlisting}") with ["\end{lstlisting}"].
      change (Str.split LF "") with [""].
      cbn [List.app map].
      change (header_line "\begin{lstlisting}") with "\begin{lstlisting}".
      change (header_line "\end{lstlisting}") with "\end{lstlisting}".
      change (header_line "") with "".
      change (header_line ("# " +:+ t)) with ("\section{" +:+ t +:+ "}").
      cbn [list_output].
      change (list_item "\begin{lstlisting}") with (@None string).
      change (list_item "\end{lstlisting}") with (@None string).
      change (list_item "") with (@None string).
      change (list_item ("\section{" +:+ t +:+ "}")) with (@None string).
      cbv iota. cbn [List.app String.concat].
      rewrite ?app_assoc. reflexivity.
    - unfold code_block_repl. rewrite !mem_app, Hcode. reflexivity.
    - unfold code_block_repl, code. rewrite !mem_app, Hstar. reflexivity. }
  split; [exact Hfirst|]. split; [exact Hbody|].
  rewrite Hbody. unfold code_block_repl, code. intros H.
  apply (f_equal (String.get 20)) in H. vm_compute in H. discriminate.
Qed.

Lemma fenced_header_line_rewritten_witness :
  markdown_body ("```" +:+ (nl +:+ "# " +:+ "x" +:+ nl) +:+ "```")
    = "\begin{lstlisting}" +:+ nl +:+ nl +:+ "\section{" +:+ "x" +:+ "}"
        +:+ nl +:+ nl +:+ "\end{lstlisting}"
  /\ markdown_body ("```" +:+ (nl +:+ "# " +:+ "x" +:+ nl) +:+ "```")
     <> code_block_repl (nl +:+ "# " +:+ "x" +:+ nl).
Proof.
  apply (fenced_header_line_rewritten "x"); reflexivity.
Defined.
